(** * Mars lander: mechanical simulation functions (lander.cpp)

    A shallow embedding of [acceleration], [autopilot], [numerical_dynamics]
    and [initialize_simulation].  The C++ [double] is idealised as a real
    number: every statement below is about the formulas the program
    evaluates, not about rounding.  A quotient whose divisor is zero has no
    meaning in this idealisation (IEEE arithmetic gives an infinity or a
    NaN there); no theorem below depends on the value of such a quotient,
    the divisors themselves are exposed as definitions instead. *)

From Stdlib Require Import Reals Lra Psatz ZArith String.

Open Scope R_scope.

(** ** vector3d *)

(** Modelled from the spec: the class [vector3d] of lander.h, a value type
    of three scalar components with componentwise arithmetic, the squared
    magnitude [abs2], the magnitude [abs] and the unit direction [norm],
    which is guarded at the zero vector. *)
Record vector3d : Type := mkvec { x : R; y : R; z : R }.

Declare Scope vec_scope.
Delimit Scope vec_scope with vec.
Bind Scope vec_scope with vector3d.

Definition vadd (u v : vector3d) : vector3d :=
  mkvec (x u + x v) (y u + y v) (z u + z v).

Definition vsub (u v : vector3d) : vector3d :=
  mkvec (x u - x v) (y u - y v) (z u - z v).

Definition vopp (v : vector3d) : vector3d :=
  mkvec (- x v) (- y v) (- z v).

(** [double * vector3d] *)
Definition smul (k : R) (v : vector3d) : vector3d :=
  mkvec (k * x v) (k * y v) (k * z v).

(** [vector3d * double] *)
Definition vmul (v : vector3d) (k : R) : vector3d :=
  mkvec (x v * k) (y v * k) (z v * k).

(** [vector3d / double] *)
Definition vdiv (v : vector3d) (k : R) : vector3d :=
  mkvec (x v / k) (y v / k) (z v / k).

Definition abs2 (v : vector3d) : R := x v * x v + y v * y v + z v * z v.

Definition abs (v : vector3d) : R := sqrt (abs2 v).

Definition norm (v : vector3d) : vector3d :=
  let s := abs v in
  if Req_dec_T s 0 then v else vdiv v s.

Infix "+:" := vadd (at level 50, left associativity) : vec_scope.
Infix "-:" := vsub (at level 50, left associativity) : vec_scope.
Infix "*:" := smul (at level 40, left associativity) : vec_scope.
Infix ":*" := vmul (at level 40, left associativity) : vec_scope.
Infix ":/" := vdiv (at level 40, left associativity) : vec_scope.

Open Scope vec_scope.

(** ** Global state *)

(** The source tests the status against the two enumerators [DEPLOYED] and
    [NOT_DEPLOYED] only.  A C++ enumeration object can hold further values
    (further enumerators of lander.h, or any value of the underlying
    integer type); [STATUS_OTHER] stands for all of those. *)
Inductive parachute_status_t : Type :=
  | NOT_DEPLOYED
  | DEPLOYED
  | STATUS_OTHER.

Definition parachute_status_eqb (a b : parachute_status_t) : bool :=
  match a, b with
  | NOT_DEPLOYED, NOT_DEPLOYED => true
  | DEPLOYED, DEPLOYED => true
  | STATUS_OTHER, STATUS_OTHER => true
  | _, _ => false
  end.

(** The globals the four functions read and write, together with the two
    function-local statics: [previous] of [numerical_dynamics] and
    [scaling] of [autopilot]. *)
Record state : Type := mkstate {
  position : vector3d;
  velocity : vector3d;
  orientation : vector3d;
  fuel : R;
  throttle : R;
  delta_t : R;
  simulation_time : R;
  parachute_status : parachute_status_t;
  stabilized_attitude : bool;
  autopilot_enabled : bool;
  scenario : Z;
  scenario_description : nat -> string;
  previous : vector3d;
  scaling : R
}.

Definition set_position (v : vector3d) (s : state) : state :=
  mkstate v (velocity s) (orientation s) (fuel s) (throttle s) (delta_t s)
    (simulation_time s) (parachute_status s) (stabilized_attitude s)
    (autopilot_enabled s) (scenario s) (scenario_description s) (previous s)
    (scaling s).

Definition set_velocity (v : vector3d) (s : state) : state :=
  mkstate (position s) v (orientation s) (fuel s) (throttle s) (delta_t s)
    (simulation_time s) (parachute_status s) (stabilized_attitude s)
    (autopilot_enabled s) (scenario s) (scenario_description s) (previous s)
    (scaling s).

Definition set_orientation (v : vector3d) (s : state) : state :=
  mkstate (position s) (velocity s) v (fuel s) (throttle s) (delta_t s)
    (simulation_time s) (parachute_status s) (stabilized_attitude s)
    (autopilot_enabled s) (scenario s) (scenario_description s) (previous s)
    (scaling s).

Definition set_throttle (r : R) (s : state) : state :=
  mkstate (position s) (velocity s) (orientation s) (fuel s) r (delta_t s)
    (simulation_time s) (parachute_status s) (stabilized_attitude s)
    (autopilot_enabled s) (scenario s) (scenario_description s) (previous s)
    (scaling s).

Definition set_delta_t (r : R) (s : state) : state :=
  mkstate (position s) (velocity s) (orientation s) (fuel s) (throttle s) r
    (simulation_time s) (parachute_status s) (stabilized_attitude s)
    (autopilot_enabled s) (scenario s) (scenario_description s) (previous s)
    (scaling s).

Definition set_parachute_status (p : parachute_status_t) (s : state) : state :=
  mkstate (position s) (velocity s) (orientation s) (fuel s) (throttle s)
    (delta_t s) (simulation_time s) p (stabilized_attitude s)
    (autopilot_enabled s) (scenario s) (scenario_description s) (previous s)
    (scaling s).

Definition set_stabilized_attitude (b : bool) (s : state) : state :=
  mkstate (position s) (velocity s) (orientation s) (fuel s) (throttle s)
    (delta_t s) (simulation_time s) (parachute_status s) b
    (autopilot_enabled s) (scenario s) (scenario_description s) (previous s)
    (scaling s).

Definition set_autopilot_enabled (b : bool) (s : state) : state :=
  mkstate (position s) (velocity s) (orientation s) (fuel s) (throttle s)
    (delta_t s) (simulation_time s) (parachute_status s)
    (stabilized_attitude s) b (scenario s) (scenario_description s)
    (previous s) (scaling s).

Definition set_scenario_description (i : nat) (d : string) (s : state) : state :=
  mkstate (position s) (velocity s) (orientation s) (fuel s) (throttle s)
    (delta_t s) (simulation_time s) (parachute_status s)
    (stabilized_attitude s) (autopilot_enabled s) (scenario s)
    (fun j => if Nat.eqb j i then d else scenario_description s j)
    (previous s) (scaling s).

Definition set_previous (v : vector3d) (s : state) : state :=
  mkstate (position s) (velocity s) (orientation s) (fuel s) (throttle s)
    (delta_t s) (simulation_time s) (parachute_status s)
    (stabilized_attitude s) (autopilot_enabled s) (scenario s)
    (scenario_description s) v (scaling s).

Definition set_scaling (r : R) (s : state) : state :=
  mkstate (position s) (velocity s) (orientation s) (fuel s) (throttle s)
    (delta_t s) (simulation_time s) (parachute_status s)
    (stabilized_attitude s) (autopilot_enabled s) (scenario s)
    (scenario_description s) (previous s) r.

(** Agreement of two states on the fields a scenario sets. *)
Definition same_pose (s t : state) : Prop :=
  position t = position s
  /\ velocity t = velocity s
  /\ orientation t = orientation s
  /\ delta_t t = delta_t s
  /\ parachute_status t = parachute_status s
  /\ stabilized_attitude t = stabilized_attitude s
  /\ autopilot_enabled t = autopilot_enabled s.

(** A collaborator that leaves the integrator's variables alone: the
    position, the velocity and the remembered previous position. *)
Definition keeps_trajectory (f : state -> state) : Prop :=
  forall s : state,
    position (f s) = position s
    /\ velocity (f s) = velocity s
    /\ previous (f s) = previous s.

(** ** What lander.h and the rest of the simulator supply *)

(** The constants and the three collaborators that lander.cpp uses and does
    not define.  [vector3d_decl] is the value a [vector3d] local holds
    after its declaration and before any assignment.  The collaborators
    are taken as functions of the global state. *)
Class lander_h : Type := {
  GRAVITY : R;
  MARS_MASS : R;
  MARS_RADIUS : R;
  EXOSPHERE : R;
  LANDER_SIZE : R;
  UNLOADED_LANDER_MASS : R;
  FUEL_CAPACITY : R;
  FUEL_DENSITY : R;
  MAX_THRUST : R;
  DRAG_COEF_CHUTE : R;
  DRAG_COEF_LANDER : R;
  vector3d_decl : vector3d;
  atmospheric_density : vector3d -> R;
  thrust_wrt_world : state -> vector3d;
  attitude_stabilization : state -> state
}.


Section Lander.

Context {H : lander_h}.

(** ** acceleration *)

Definition a_gravity (pos : vector3d) : vector3d :=
  (- GRAVITY * MARS_MASS) *: norm pos :/ abs2 pos.

Definition self_drag (pos vel : vector3d) : vector3d :=
  (-0.5 * atmospheric_density pos * DRAG_COEF_LANDER
     * (3.1415 * LANDER_SIZE ^ 2) * abs2 vel) *: norm vel.

Definition para_drag (pos vel : vector3d) : vector3d :=
  (-0.5 * atmospheric_density pos * DRAG_COEF_CHUTE
     * (LANDER_SIZE * 2) ^ 2 * abs2 vel) *: norm vel :* 5.

(** The local [drag] after the two [if] statements of lines 33 and 34. *)
Definition acceleration_drag (s : state) (pos vel : vector3d) : vector3d :=
  let drag := vector3d_decl in
  let drag :=
    if parachute_status_eqb (parachute_status s) DEPLOYED
    then self_drag pos vel +: para_drag pos vel else drag in
  let drag :=
    if parachute_status_eqb (parachute_status s) NOT_DEPLOYED
    then self_drag pos vel else drag in
  drag.

(** The local [mass] of line 36. *)
Definition acceleration_mass (s : state) : R :=
  fuel s * FUEL_CAPACITY * FUEL_DENSITY.

Definition acceleration (s : state) (pos vel : vector3d) : vector3d :=
  let thrust := thrust_wrt_world s in
  let drag := acceleration_drag s pos vel in
  let mass := acceleration_mass s in
  a_gravity pos +: (thrust +: drag) :/ mass.

(** ** autopilot *)

(** The local vector [acceleration] of line 46. *)
Definition autopilot_acceleration (s : state) : vector3d :=
  (- GRAVITY * MARS_MASS) *: norm (position s) :/ abs2 (position s).

(** The local [force] of line 48. *)
Definition autopilot_force (s : state) : R :=
  y (autopilot_acceleration s)
  * (fuel s * FUEL_CAPACITY * FUEL_DENSITY + UNLOADED_LANDER_MASS).

(** The local [alt] of line 51; [abs] of a [double] is its absolute
    value. *)
Definition autopilot_alt (s : state) : R :=
  Rabs (y (position s)) - MARS_RADIUS.

(** The static [scaling] after lines 52 and 53. *)
Definition autopilot_scaling (s : state) : R :=
  let scaling := (4000 - autopilot_alt s) / 4000 in
  if Rlt_dec scaling 0 then 0 else scaling.

(** The throttle assigned by line 54, before the cut-off and the bands. *)
Definition autopilot_baseline (s : state) : R :=
  autopilot_force s / MAX_THRUST * autopilot_scaling s.

Definition autopilot (s : state) : state :=
  let force := autopilot_force s in
  let alt := autopilot_alt s in
  let scaling := autopilot_scaling s in
  let throttle := force / MAX_THRUST * scaling in
  let throttle := if Rlt_dec (y (velocity s)) 0 then 0 else throttle in
  let throttle :=
    if Rlt_dec alt 300 then
      let throttle :=
        if Rgt_dec (y (velocity s)) 0.6 then
          if Rlt_dec (y (velocity s)) 3
          then force / MAX_THRUST * 0.5 else throttle
        else throttle in
      let throttle :=
        if Rgt_dec (y (velocity s)) 3
        then force / MAX_THRUST else throttle in
      let throttle :=
        if Rlt_dec (y (velocity s)) 0.6 then 0 else throttle in
      throttle
    else throttle in
  set_throttle throttle (set_scaling scaling s).

(** The constants are those of a physical lander: positive gravity and
    planet, non-negative masses, and an engine that can at least hold a
    fully fuelled lander against gravity at the surface. *)
Definition engine_can_hover : Prop :=
  0 < GRAVITY * MARS_MASS
  /\ 0 < MARS_RADIUS
  /\ 0 <= UNLOADED_LANDER_MASS
  /\ 0 <= FUEL_CAPACITY * FUEL_DENSITY
  /\ 0 < MAX_THRUST
  /\ (FUEL_CAPACITY * FUEL_DENSITY + UNLOADED_LANDER_MASS)
     * (GRAVITY * MARS_MASS / (MARS_RADIUS * MARS_RADIUS)) <= MAX_THRUST.

(** ** numerical_dynamics *)

(** The [if]/[else] of lines 100 to 118. *)
Definition integration (s : state) : state :=
  if Req_dec_T (simulation_time s) 0 then
    let acc := acceleration s (position s) (velocity s) in
    let s := set_previous (position s) s in
    let s :=
      set_position
        (previous s +: velocity s :* delta_t s
         +: (0.5 * delta_t s * delta_t s) *: acc) s in
    set_velocity (velocity s +: delta_t s *: acc) s
  else
    let acc := acceleration s (position s) (velocity s) in
    let next :=
      2 *: position s -: previous s +: acc :* delta_t s :* delta_t s in
    let s := set_velocity ((next -: previous s) :/ (2 * delta_t s)) s in
    let s := set_previous (position s) s in
    set_position next s.

Definition numerical_dynamics (s : state) : state :=
  let s := integration s in
  let s := if autopilot_enabled s then autopilot s else s in
  if stabilized_attitude s then attitude_stabilization s else s.

(** ** initialize_simulation *)

Definition scenario_descriptions (s : state) : state :=
  let s := set_scenario_description 0 "circular orbit" s in
  let s := set_scenario_description 1 "descent from 10km" s in
  let s :=
    set_scenario_description 2
      "elliptical orbit, thrust changes orbital plane" s in
  let s :=
    set_scenario_description 3
      "polar launch at escape velocity (but drag prevents escape)" s in
  let s :=
    set_scenario_description 4
      "elliptical orbit that clips the atmosphere and decays" s in
  let s := set_scenario_description 5 "descent from 200km" s in
  let s := set_scenario_description 6 EmptyString s in
  let s := set_scenario_description 7 EmptyString s in
  let s := set_scenario_description 8 EmptyString s in
  set_scenario_description 9 EmptyString s.

(** One [case] body: the seven assignments every defined scenario makes. *)
Definition scenario_case (p v o : vector3d) (dt : R)
    (ps : parachute_status_t) (sa ae : bool) (s : state) : state :=
  let s := set_position p s in
  let s := set_velocity v s in
  let s := set_orientation o s in
  let s := set_delta_t dt s in
  let s := set_parachute_status ps s in
  let s := set_stabilized_attitude sa s in
  set_autopilot_enabled ae s.

Definition initialize_simulation (s : state) : state :=
  let s := scenario_descriptions s in
  match scenario s with
  | 0%Z =>
      scenario_case (mkvec (1.2 * MARS_RADIUS) 0.0 0.0)
        (mkvec 0.0 (-3247.087385863725) 0.0) (mkvec 0.0 90.0 0.0)
        0.1 NOT_DEPLOYED false false s
  | 1%Z =>
      scenario_case (mkvec 0.0 (- (MARS_RADIUS + 10000.0)) 0.0)
        (mkvec 0.0 0.0 0.0) (mkvec 0.0 0.0 90.0)
        0.1 NOT_DEPLOYED true false s
  | 2%Z =>
      scenario_case (mkvec 0.0 0.0 (1.2 * MARS_RADIUS))
        (mkvec 3500.0 0.0 0.0) (mkvec 0.0 0.0 90.0)
        0.1 NOT_DEPLOYED false false s
  | 3%Z =>
      scenario_case (mkvec 0.0 0.0 (MARS_RADIUS + LANDER_SIZE / 2.0))
        (mkvec 0.0 0.0 5027.0) (mkvec 0.0 0.0 0.0)
        0.1 NOT_DEPLOYED false false s
  | 4%Z =>
      scenario_case (mkvec 0.0 0.0 (MARS_RADIUS + 100000.0))
        (mkvec 4000.0 0.0 0.0) (mkvec 0.0 90.0 0.0)
        0.1 NOT_DEPLOYED false false s
  | 5%Z =>
      scenario_case (mkvec 0.0 (- (MARS_RADIUS + EXOSPHERE)) 0.0)
        (mkvec 0.0 0.0 0.0) (mkvec 0.0 0.0 90.0)
        0.1 NOT_DEPLOYED true false s
  | 6%Z => s
  | 7%Z => s
  | 8%Z => s
  | 9%Z => s
  | _ => s
  end.

End Lander.

(** ** A concrete environment *)

(** Values to evaluate the functions at.  The constants are those of Mars
    and of a 200 kg lander: with them the speed of scenario 0,
    3247.087385863725 m/s at 1.2 radii, is the circular-orbit speed (see
    [circular_orbit_speed]).  The atmosphere is exponential between the
    surface and the exosphere and empty outside, the thrust points away
    from the planet centre, attitude stabilisation only turns the lander,
    and a declared [vector3d] is the zero vector. *)
Module Sample.

Definition mars_radius : R := 3386000.0.
Definition exosphere : R := 200000.0.
Definition gravity : R := 6.673E-11.
Definition mars_mass : R := 6.42E23.
Definition unloaded_lander_mass : R := 100.0.
Definition fuel_capacity : R := 100.0.
Definition fuel_density : R := 1.0.

Definition max_thrust : R :=
  1.5 * (fuel_density * fuel_capacity + unloaded_lander_mass)
  * (gravity * mars_mass / (mars_radius * mars_radius)).

Definition density (pos : vector3d) : R :=
  let alt := abs pos - mars_radius in
  if Rgt_dec alt exosphere then 0.0
  else if Rlt_dec alt 0.0 then 0.0
  else 0.017 * exp (- alt / 11000.0).

#[export] Instance env : lander_h := {|
  GRAVITY := gravity;
  MARS_MASS := mars_mass;
  MARS_RADIUS := mars_radius;
  EXOSPHERE := exosphere;
  LANDER_SIZE := 1.0;
  UNLOADED_LANDER_MASS := unloaded_lander_mass;
  FUEL_CAPACITY := fuel_capacity;
  FUEL_DENSITY := fuel_density;
  MAX_THRUST := max_thrust;
  DRAG_COEF_CHUTE := 2.0;
  DRAG_COEF_LANDER := 1.0;
  vector3d_decl := mkvec 0 0 0;
  atmospheric_density := density;
  thrust_wrt_world := fun s => (throttle s * max_thrust) *: norm (position s);
  attitude_stabilization := fun s => set_orientation (norm (position s)) s
|}.

(** The globals before [initialize_simulation]: a full tank, the engine
    off, the clock at zero, scenario [k] selected. *)
Definition fresh (k : Z) : state :=
  mkstate (mkvec 0 0 0) (mkvec 0 0 0) (mkvec 0 0 0) 1 0 0 0 NOT_DEPLOYED
    false false k (fun _ => EmptyString) (mkvec 0 0 0) 0.

Definition started (k : Z) : state := initialize_simulation (fresh k).

(** The lander on the y axis at height [h] above the surface, on the side
    [side] (1 or -1) of the planet, with vertical velocity [vy]. *)
Definition on_axis (side h vy : R) (s : state) : state :=
  set_velocity (mkvec 0 vy 0)
    (set_position (mkvec 0 (side * (mars_radius + h)) 0) s).


Definition set_simulation_time (r : R) (s : state) : state :=
  mkstate (position s) (velocity s) (orientation s) (fuel s) (throttle s)
    (delta_t s) r (parachute_status s)
    (stabilized_attitude s) (autopilot_enabled s) (scenario s)
    (scenario_description s) (previous s) (scaling s).

End Sample.

(** * Properties *)

(** ** Vectors *)

Lemma vector3d_eq (u v : vector3d) :
  x u = x v -> y u = y v -> z u = z v -> u = v.
Proof. destruct u, v; simpl; intros -> -> ->; reflexivity. Qed.

Lemma abs2_nonneg (v : vector3d) : 0 <= abs2 v.
Proof. unfold abs2; nra. Qed.

Lemma abs_nonneg (v : vector3d) : 0 <= abs v.
Proof. apply sqrt_pos. Qed.

Lemma abs_sqr (v : vector3d) : abs v * abs v = abs2 v.
Proof. apply sqrt_sqrt, abs2_nonneg. Qed.

Lemma abs_pos (v : vector3d) : 0 < abs2 v -> 0 < abs v.
Proof. intros Hv; apply sqrt_lt_R0, Hv. Qed.

Lemma abs_y_le (v : vector3d) : Rabs (y v) <= abs v.
Proof.
  unfold abs. rewrite <- sqrt_Rsqr_abs. apply sqrt_le_1_alt.
  unfold abs2, Rsqr. nra.
Qed.

Lemma abs_on_y_axis (v : vector3d) :
  x v = 0 -> z v = 0 -> abs v = Rabs (y v).
Proof.
  intros Hx Hz. unfold abs, abs2. rewrite Hx, Hz, <- sqrt_Rsqr_abs.
  f_equal. unfold Rsqr; ring.
Qed.

Lemma abs_on_x_axis (v : vector3d) :
  y v = 0 -> z v = 0 -> abs v = Rabs (x v).
Proof.
  intros Hy Hz. unfold abs, abs2. rewrite Hy, Hz, <- sqrt_Rsqr_abs.
  f_equal. unfold Rsqr; ring.
Qed.

Lemma norm_nonzero (v : vector3d) : 0 < abs2 v -> norm v = v :/ abs v.
Proof.
  intros Hv. unfold norm. destruct (Req_dec_T (abs v) 0) as [E|_].
  - pose proof (abs_pos v Hv); lra.
  - reflexivity.
Qed.

Lemma abs2_norm (v : vector3d) : 0 < abs2 v -> abs2 (norm v) = 1.
Proof.
  intros Hv. rewrite norm_nonzero by assumption.
  pose proof (abs_pos v Hv) as Hs. pose proof (abs_sqr v) as Hq.
  unfold abs2 at 1; simpl. unfold abs2 in Hq.
  field_simplify_eq; [|lra]. nra.
Qed.

Lemma norm_on_y_axis (v : vector3d) :
  x v = 0 -> z v = 0 -> y v <> 0 ->
  norm v = mkvec 0 (y v / Rabs (y v)) 0.
Proof.
  intros Hx Hz Hy. unfold norm. rewrite abs_on_y_axis by assumption.
  destruct (Req_dec_T (Rabs (y v)) 0) as [E|N].
  - apply Rabs_no_R0 in Hy. contradiction.
  - apply vector3d_eq; simpl; rewrite ?Hx, ?Hz; field; assumption.
Qed.

Lemma norm_zero (v : vector3d) :
  x v = 0 -> y v = 0 -> z v = 0 -> norm v = v.
Proof.
  intros Hx Hy Hz. unfold norm. rewrite abs_on_y_axis by assumption.
  rewrite Hy, Rabs_R0. destruct (Req_dec_T 0 0); [reflexivity | congruence].
Qed.

Lemma abs2_smul (k : R) (v : vector3d) : abs2 (k *: v) = k * k * abs2 v.
Proof. unfold abs2; simpl; ring. Qed.

(** ** Sample constants *)

Lemma circular_orbit_speed :
  let v := 3247.087385863725 in
  Rabs (v * v * (1.2 * Sample.mars_radius)
        - Sample.gravity * Sample.mars_mass) < 1.
Proof.
  unfold Sample.mars_radius, Sample.gravity, Sample.mars_mass; simpl.
  apply Rabs_def1; lra.
Qed.

Lemma sample_max_thrust_pos : 0 < Sample.max_thrust.
Proof.
  unfold Sample.max_thrust, Sample.fuel_density, Sample.fuel_capacity,
    Sample.unloaded_lander_mass, Sample.gravity, Sample.mars_mass,
    Sample.mars_radius.
  lra.
Qed.

(** ** acceleration *)

Section Acceleration.

Context {H : lander_h}.

Lemma acceleration_unfold (s : state) (pos vel : vector3d) :
  acceleration s pos vel
  = a_gravity pos
    +: (thrust_wrt_world s +: acceleration_drag s pos vel)
       :/ (fuel s * FUEL_CAPACITY * FUEL_DENSITY).
Proof. reflexivity. Qed.

Lemma drag_deployed (s : state) (pos vel : vector3d) :
  parachute_status s = DEPLOYED ->
  acceleration_drag s pos vel = self_drag pos vel +: para_drag pos vel.
Proof. intros E. unfold acceleration_drag. rewrite E. reflexivity. Qed.

Lemma drag_not_deployed (s : state) (pos vel : vector3d) :
  parachute_status s = NOT_DEPLOYED ->
  acceleration_drag s pos vel = self_drag pos vel.
Proof. intros E. unfold acceleration_drag. rewrite E. reflexivity. Qed.


End Acceleration.

Section AccelerationAtSample.

#[local] Existing Instance Sample.env.

Lemma sample_thrust (s : state) :
  thrust_wrt_world s = (throttle s * Sample.max_thrust) *: norm (position s).
Proof. reflexivity. Qed.

Lemma sample_masses :
  FUEL_CAPACITY = 100 /\ FUEL_DENSITY = 1 /\ UNLOADED_LANDER_MASS = 100.
Proof.
  simpl. unfold Sample.fuel_capacity, Sample.fuel_density,
    Sample.unloaded_lander_mass. lra.
Qed.

(** C1 (the code departs from the claim).  Scenario 1 with a full tank and
    the throttle fully open: the divisor of line 38 is the mass of the fuel
    alone, 100 kg, where the lander weighs 200 kg; the thrust therefore
    contributes MAX_THRUST/100 to the returned acceleration, twice the
    MAX_THRUST/200 that dividing by the current mass of the lander
    gives. *)
Theorem acceleration_mass_omits_unloaded_mass :
  let s := set_throttle 1 (Sample.started 1) in
  let pos := position s in
  let vel := velocity s in
  acceleration_mass s = 100
  /\ UNLOADED_LANDER_MASS + fuel s * FUEL_CAPACITY * FUEL_DENSITY = 200
  /\ y (acceleration s pos vel) = y (a_gravity pos) - MAX_THRUST / 100
  /\ y (a_gravity pos
        +: (thrust_wrt_world s +: acceleration_drag s pos vel)
           :/ (UNLOADED_LANDER_MASS
               + fuel s * FUEL_CAPACITY * FUEL_DENSITY))
     = y (a_gravity pos) - MAX_THRUST / 200.
Proof.
  intros s pos vel. subst pos vel.
  destruct sample_masses as (Hc & Hd & Hu).
  assert (Hp : position s
               = mkvec 0.0 (- (Sample.mars_radius + 10000.0)) 0.0)
    by reflexivity.
  assert (Hv : velocity s = mkvec 0.0 0.0 0.0) by reflexivity.
  assert (Hf : fuel s = 1) by reflexivity.
  assert (Ht : throttle s = 1) by reflexivity.
  assert (Hm : acceleration_mass s = 100).
  { unfold acceleration_mass. rewrite Hf, Hc, Hd. lra. }
  assert (Hs : y (position s) / Rabs (y (position s)) = -1).
  { rewrite Hp; simpl y.
    rewrite Rabs_left by (unfold Sample.mars_radius; lra).
    field. unfold Sample.mars_radius; lra. }
  assert (Hthrust : y (thrust_wrt_world s +: acceleration_drag s
                         (position s) (velocity s)) = - MAX_THRUST).
  { rewrite drag_not_deployed by reflexivity.
    rewrite sample_thrust, Ht. unfold self_drag.
    rewrite (norm_zero (velocity s)) by (rewrite Hv; simpl; lra).
    rewrite (norm_on_y_axis (position s))
      by (rewrite Hp; simpl; unfold Sample.mars_radius; lra).
    rewrite Hs, Hv. generalize (atmospheric_density (position s)).
    intros rho. simpl. lra. }
  split; [exact Hm|]. split; [rewrite Hf, Hc, Hd, Hu; lra|]. split.
  - unfold acceleration. rewrite Hm.
    change (y (?a +: ?b :/ ?k)) with (y a + y b / k).
    rewrite Hthrust. lra.
  - rewrite Hf, Hc, Hd, Hu.
    change (y (?a +: ?b :/ ?k)) with (y a + y b / k).
    rewrite Hthrust. lra.
Qed.



End AccelerationAtSample.







(** ** initialize_simulation *)

Section Initialize.

Context {H : lander_h}.

Lemma same_pose_refl (s : state) : same_pose s s.
Proof. repeat split. Qed.

Lemma scenario_descriptions_pose (s : state) :
  same_pose s (scenario_descriptions s).
Proof. repeat split. Qed.

Lemma scenario_descriptions_scenario (s : state) :
  scenario (scenario_descriptions s) = scenario s.
Proof. reflexivity. Qed.

End Initialize.

(** C9.  For a scenario index with an empty [case] (6 to 9) or with no
    [case] at all (below 0 or above 9), [initialize_simulation] leaves
    position, velocity, orientation, delta_t, parachute_status,
    stabilized_attitude and autopilot_enabled as the caller set them. *)
Theorem initialize_simulation_undefined_scenario
    {H : lander_h} (s : state) :
  (scenario s < 0 \/ 5 < scenario s)%Z ->
  same_pose s (initialize_simulation s).
Proof.
  intros Hk. unfold initialize_simulation.
  rewrite scenario_descriptions_scenario.
  destruct (scenario s) as [|p|p].
  - lia.
  - do 4 (try destruct p as [p|p|]); try lia;
      apply scenario_descriptions_pose.
  - apply scenario_descriptions_pose.
Qed.

Lemma initialize_simulation_undefined_scenario_witness :
  same_pose (Sample.fresh 7) (Sample.started 7)
  /\ same_pose (Sample.fresh 12) (Sample.started 12)
  /\ same_pose (Sample.fresh (-1)) (Sample.started (-1)).
Proof.
  repeat apply conj;
    apply (initialize_simulation_undefined_scenario (H := Sample.env));
    simpl; lia.
Defined.

(** ** numerical_dynamics *)

Section Integrator.

Context {H : lander_h}.

Lemma autopilot_keeps_trajectory : keeps_trajectory autopilot.
Proof. intros s. repeat split. Qed.

Lemma integration_bootstrap (s : state) :
  simulation_time s = 0 ->
  let a := acceleration s (position s) (velocity s) in
  integration s
  = set_velocity (velocity s +: delta_t s *: a)
      (set_position
         (position s +: velocity s :* delta_t s
          +: (0.5 * delta_t s * delta_t s) *: a)
         (set_previous (position s) s)).
Proof.
  intros Ht a. unfold integration.
  destruct (Req_dec_T (simulation_time s) 0) as [_|N]; [reflexivity|].
  contradiction.
Qed.

Lemma integration_steady (s : state) :
  simulation_time s <> 0 ->
  let a := acceleration s (position s) (velocity s) in
  let next :=
    2 *: position s -: previous s +: a :* delta_t s :* delta_t s in
  integration s
  = set_position next
      (set_previous (position s)
         (set_velocity ((next -: previous s) :/ (2 * delta_t s)) s)).
Proof.
  intros Ht a next. unfold integration.
  destruct (Req_dec_T (simulation_time s) 0) as [E|_]; [|reflexivity].
  contradiction.
Qed.

Lemma numerical_dynamics_trajectory (s : state) :
  keeps_trajectory attitude_stabilization ->
  position (numerical_dynamics s) = position (integration s)
  /\ velocity (numerical_dynamics s) = velocity (integration s)
  /\ previous (numerical_dynamics s) = previous (integration s).
Proof.
  intros Hk. unfold numerical_dynamics.
  set (s1 := integration s).
  set (s2 := if autopilot_enabled s1 then autopilot s1 else s1).
  assert (H2 : position s2 = position s1 /\ velocity s2 = velocity s1
               /\ previous s2 = previous s1).
  { subst s2. destruct (autopilot_enabled s1).
    - apply autopilot_keeps_trajectory.
    - repeat split. }
  destruct H2 as (Hp & Hv & Hq).
  destruct (stabilized_attitude s2).
  - destruct (Hk s2) as (Kp & Kv & Kq). rewrite Kp, Kv, Kq. auto.
  - auto.
Qed.

End Integrator.

(** C2.  At simulation time 0 the integrator (lines 100 to 118 of
    [numerical_dynamics]) makes one Euler step with the quadratic
    correction: the previous position becomes the position, the position
    becomes position + velocity dt + a dt^2 / 2 and the velocity becomes
    velocity + a dt.  At a simulation time above 0 it makes the
    central-difference step and nothing of the bootstrap: with
    next = 2 position - previous + a dt^2, the velocity becomes
    (next - previous) / (2 dt), the previous position becomes the old
    position and the position becomes next.  Here a is the acceleration at
    the position and velocity the call starts from.  The rest of
    [numerical_dynamics] keeps these three vectors, provided attitude
    stabilisation does. *)
Theorem numerical_dynamics_bootstrap_then_central_difference
    {H : lander_h} (s : state) :
  let a := acceleration s (position s) (velocity s) in
  let dt := delta_t s in
  let s' := integration s in
  (simulation_time s = 0 ->
   previous s' = position s
   /\ position s'
      = position s +: velocity s :* dt +: (1 / 2) *: a :* (dt * dt)
   /\ velocity s' = velocity s +: a :* dt)
  /\ (0 < simulation_time s ->
      let next := 2 *: position s -: previous s +: a :* (dt * dt) in
      position s' = next
      /\ velocity s' = (next -: previous s) :/ (2 * dt)
      /\ previous s' = position s)
  /\ (keeps_trajectory attitude_stabilization ->
      position (numerical_dynamics s) = position s'
      /\ velocity (numerical_dynamics s) = velocity s'
      /\ previous (numerical_dynamics s) = previous s').
Proof.
  intros a dt s'. split; [|split].
  - intros Ht. subst s'. rewrite (integration_bootstrap s Ht). simpl.
    split; [reflexivity|]. fold a dt. split.
    + apply vector3d_eq; simpl; lra.
    + apply vector3d_eq; simpl; ring.
  - intros Ht next. subst s'.
    assert (Hne : simulation_time s <> 0) by lra.
    rewrite (integration_steady s Hne). simpl. fold a dt.
    assert (Hn : 2 *: position s -: previous s +: a :* dt :* dt = next).
    { apply vector3d_eq; simpl; ring. }
    rewrite Hn. repeat split.
  - apply numerical_dynamics_trajectory.
Qed.

(** ** autopilot *)

Section Autopilot.

Context {H : lander_h}.

Lemma autopilot_throttle (s : state) :
  throttle (autopilot s)
  = let vy := y (velocity s) in
    let base := if Rlt_dec vy 0 then 0 else autopilot_baseline s in
    if Rlt_dec (autopilot_alt s) 300 then
      let t1 :=
        if Rgt_dec vy 0.6 then
          if Rlt_dec vy 3 then autopilot_force s / MAX_THRUST * 0.5
          else base
        else base in
      let t2 := if Rgt_dec vy 3 then autopilot_force s / MAX_THRUST else t1 in
      if Rlt_dec vy 0.6 then 0 else t2
    else base.
Proof. reflexivity. Qed.

(** Line 48 multiplies by the mass of the fuel plus the mass of the
    unloaded lander. *)
Lemma autopilot_force_uses_lander_mass (s : state) :
  autopilot_force s
  = y (autopilot_acceleration s)
    * (acceleration_mass s + UNLOADED_LANDER_MASS).
Proof. reflexivity. Qed.

Lemma autopilot_acceleration_y (s : state) :
  0 < abs2 (position s) ->
  y (autopilot_acceleration s)
  = - (GRAVITY * MARS_MASS) * y (position s)
    / (abs (position s) * abs2 (position s)).
Proof.
  intros Hp. unfold autopilot_acceleration.
  rewrite norm_nonzero by assumption. simpl.
  pose proof (abs_pos _ Hp). field. split; lra.
Qed.

Lemma autopilot_acceleration_on_axis (s : state) :
  x (position s) = 0 -> z (position s) = 0 -> y (position s) <> 0 ->
  y (autopilot_acceleration s)
  = - (GRAVITY * MARS_MASS)
    / (Rabs (y (position s)) * y (position s)).
Proof.
  intros Hx Hz Hy.
  assert (Hp : abs2 (position s) = y (position s) * y (position s)).
  { unfold abs2. rewrite Hx, Hz. ring. }
  rewrite autopilot_acceleration_y by (rewrite Hp; nra).
  rewrite Hp, abs_on_y_axis by assumption.
  pose proof (Rabs_no_R0 _ Hy). field. split; assumption.
Qed.

Lemma autopilot_scaling_range (s : state) :
  0 <= autopilot_scaling s
  /\ (0 <= autopilot_alt s -> autopilot_scaling s <= 1).
Proof.
  unfold autopilot_scaling.
  destruct (Rlt_dec ((4000 - autopilot_alt s) / 4000) 0) as [L|L]; lra.
Qed.

Lemma autopilot_acceleration_below (s : state) :
  0 < GRAVITY * MARS_MASS -> 0 < MARS_RADIUS ->
  y (position s) <= - MARS_RADIUS ->
  0 <= y (autopilot_acceleration s)
       <= GRAVITY * MARS_MASS / (MARS_RADIUS * MARS_RADIUS).
Proof.
  intros Hg Hr Hy.
  set (p := position s) in *.
  assert (Hp2 : MARS_RADIUS * MARS_RADIUS <= abs2 p) by (unfold abs2; nra).
  assert (Hp : 0 < abs2 p) by nra.
  pose proof (abs_pos p Hp) as Ha. pose proof (abs_sqr p) as Hq.
  pose proof (abs_y_le p) as Hle. rewrite Rabs_left in Hle by lra.
  rewrite autopilot_acceleration_y by assumption. fold p.
  replace (- (GRAVITY * MARS_MASS) * y p / (abs p * abs2 p))
    with (GRAVITY * MARS_MASS * ((- y p / abs p) * / abs2 p))
    by (field; split; lra).
  assert (Hu : 0 <= - y p / abs p <= 1).
  { split.
    - apply Rmult_le_pos; [lra|]. left; apply Rinv_0_lt_compat, Ha.
    - apply (Rmult_le_reg_r (abs p)); [exact Ha|].
      replace (- y p / abs p * abs p) with (- y p) by (field; lra). lra. }
  assert (Hi : 0 < / abs2 p <= / (MARS_RADIUS * MARS_RADIUS)).
  { split; [apply Rinv_0_lt_compat, Hp|].
    apply Rinv_le_contravar; [nra|exact Hp2]. }
  set (u := - y p / abs p) in *. set (i := / abs2 p) in *.
  set (j := / (MARS_RADIUS * MARS_RADIUS)) in *.
  set (g := GRAVITY * MARS_MASS) in *.
  assert (Hui : 0 <= u * i) by (apply Rmult_le_pos; lra).
  assert (Huj : u * i <= j).
  { apply Rle_trans with (1 * i); [|lra].
    apply Rmult_le_compat_r; lra. }
  change (g / (MARS_RADIUS * MARS_RADIUS)) with (g * j).
  split.
  - apply Rmult_le_pos; lra.
  - apply Rmult_le_compat_l; lra.
Qed.

End Autopilot.

Section AutopilotRange.

Context {H : lander_h}.

Lemma autopilot_force_range (s : state) :
  engine_can_hover ->
  y (position s) <= - MARS_RADIUS ->
  0 <= fuel s <= 1 ->
  0 <= autopilot_force s / MAX_THRUST <= 1.
Proof.
  intros (Hg & Hr & Hu & Hc & Hm & Hmax) Hy Hf.
  destruct (autopilot_acceleration_below s Hg Hr Hy) as [Ha0 Ha1].
  unfold autopilot_force.
  set (a := y (autopilot_acceleration s)) in *.
  set (g := GRAVITY * MARS_MASS / (MARS_RADIUS * MARS_RADIUS)) in *.
  replace (fuel s * FUEL_CAPACITY * FUEL_DENSITY)
    with (fuel s * (FUEL_CAPACITY * FUEL_DENSITY)) by ring.
  set (c := FUEL_CAPACITY * FUEL_DENSITY) in *.
  assert (Hm0 : 0 <= fuel s * c + UNLOADED_LANDER_MASS) by nra.
  assert (Hm1 : fuel s * c + UNLOADED_LANDER_MASS
                <= c + UNLOADED_LANDER_MASS) by nra.
  set (m := fuel s * c + UNLOADED_LANDER_MASS) in *.
  assert (Hf0 : 0 <= a * m) by (apply Rmult_le_pos; lra).
  assert (Hf1 : a * m <= MAX_THRUST).
  { apply Rle_trans with (g * (c + UNLOADED_LANDER_MASS)); [|lra].
    apply Rmult_le_compat; lra. }
  split.
  - apply Rmult_le_pos; [lra|]. left; apply Rinv_0_lt_compat, Hm.
  - apply (Rmult_le_reg_r MAX_THRUST); [exact Hm|].
    replace (a * m / MAX_THRUST * MAX_THRUST) with (a * m) by (field; lra).
    lra.
Qed.

End AutopilotRange.

(** C3, as amended.  For a lander on the negative y axis side of the
    planet, at or above the surface (position.y at most minus the planet
    radius), with a fuel level between 0 and 1 and an engine that can
    hold the full lander at the surface, the throttle the autopilot sets
    lies between 0 and 1. *)
Theorem autopilot_throttle_in_unit_interval {H : lander_h} (s : state) :
  engine_can_hover ->
  y (position s) <= - MARS_RADIUS ->
  0 <= fuel s <= 1 ->
  0 <= throttle (autopilot s) <= 1.
Proof.
  intros Hc Hy Hf.
  pose proof (autopilot_force_range s Hc Hy Hf) as Hq.
  destruct (autopilot_scaling_range s) as [Hs0 Hs1].
  assert (Halt : 0 <= autopilot_alt s).
  { unfold autopilot_alt. destruct Hc as (_ & Hr & _).
    rewrite Rabs_left by lra. lra. }
  specialize (Hs1 Halt).
  rewrite autopilot_throttle. unfold autopilot_baseline. cbv zeta.
  set (q := autopilot_force s / MAX_THRUST) in *.
  set (k := autopilot_scaling s) in *.
  assert (Hqk : 0 <= q * k <= 1) by nra.
  repeat match goal with
         | |- context [Rlt_dec ?a ?b] => destruct (Rlt_dec a b)
         | |- context [Rgt_dec ?a ?b] => destruct (Rgt_dec a b)
         end; lra.
Qed.

(** C4, as amended.  Whenever velocity.y is strictly negative and the
    altitude is at least 300 m, the autopilot sets the throttle to exactly
    0.  (On the negative y axis, where the descent scenarios start, a
    negative velocity.y is motion away from the surface.) *)
Theorem autopilot_cutoff_when_velocity_y_negative
    {H : lander_h} (s : state) :
  y (velocity s) < 0 ->
  300 <= autopilot_alt s ->
  throttle (autopilot s) = 0.
Proof.
  intros Hv Ha. rewrite autopilot_throttle. cbv zeta.
  destruct (Rlt_dec (autopilot_alt s) 300) as [L|_]; [lra|].
  destruct (Rlt_dec (y (velocity s)) 0) as [_|N]; [reflexivity|lra].
Qed.

(** C5, as amended.  Below 300 m the autopilot sets the throttle to
    requiredForce/MAX_THRUST times 0.5 for velocity.y strictly between 0.6
    and 3, to requiredForce/MAX_THRUST for velocity.y above 3 (in both
    bands without the gain of the baseline), and to 0 for velocity.y below
    0.6; at velocity.y equal to 3 no band applies and the throttle is the
    baseline requiredForce/MAX_THRUST times scaling. *)
Theorem autopilot_low_altitude_bands {H : lander_h} (s : state) :
  autopilot_alt s < 300 ->
  let vy := y (velocity s) in
  (0.6 < vy < 3 ->
   throttle (autopilot s) = autopilot_force s / MAX_THRUST * 0.5)
  /\ (3 < vy -> throttle (autopilot s) = autopilot_force s / MAX_THRUST)
  /\ (vy = 3 -> throttle (autopilot s) = autopilot_baseline s)
  /\ (vy < 0.6 -> throttle (autopilot s) = 0).
Proof.
  intros Ha vy. rewrite autopilot_throttle. cbv zeta. fold vy.
  destruct (Rlt_dec (autopilot_alt s) 300) as [_|N]; [|lra].
  repeat split; intros Hv;
    repeat match goal with
           | |- context [Rlt_dec ?a ?b] => destruct (Rlt_dec a b)
           | |- context [Rgt_dec ?a ?b] => destruct (Rgt_dec a b)
           end; try reflexivity; lra.
Qed.

(** C8, as amended.  The altitude the autopilot uses is the absolute
    value of position.y minus the planet radius; it is the distance from
    the planet centre minus the radius when the lander is on the y axis
    (position.x and position.z zero). *)
Theorem autopilot_alt_along_y {H : lander_h} (s : state) :
  autopilot_alt s = Rabs (y (position s)) - MARS_RADIUS
  /\ (x (position s) = 0 -> z (position s) = 0 ->
      autopilot_alt s = abs (position s) - MARS_RADIUS).
Proof.
  split; [reflexivity|]. intros Hx Hz. unfold autopilot_alt.
  rewrite abs_on_y_axis by assumption. reflexivity.
Qed.

Section AutopilotSign.

Context {H : lander_h}.

Lemma autopilot_force_sign (s : state) :
  engine_can_hover ->
  x (position s) = 0 -> z (position s) = 0 ->
  0 < fuel s * FUEL_CAPACITY * FUEL_DENSITY + UNLOADED_LANDER_MASS ->
  (0 < y (position s) -> autopilot_force s / MAX_THRUST < 0)
  /\ (y (position s) < 0 -> 0 < autopilot_force s / MAX_THRUST).
Proof.
  intros (Hg & Hr & Hu & Hc & Hm & Hmax) Hx Hz Hmass.
  assert (Hi : 0 < / MAX_THRUST) by (apply Rinv_0_lt_compat, Hm).
  unfold autopilot_force, Rdiv.
  set (m := fuel s * FUEL_CAPACITY * FUEL_DENSITY + UNLOADED_LANDER_MASS) in *.
  split; intros Hy.
  - rewrite autopilot_acceleration_on_axis by (assumption || lra).
    rewrite Rabs_right by lra.
    assert (Hd : 0 < / (y (position s) * y (position s)))
      by (apply Rinv_0_lt_compat; nra).
    unfold Rdiv. set (d := / (y (position s) * y (position s))) in *.
    assert (Hgd : 0 < GRAVITY * MARS_MASS * d) by (apply Rmult_lt_0_compat; lra).
    assert (Hgm : 0 < GRAVITY * MARS_MASS * d * m)
      by (apply Rmult_lt_0_compat; lra).
    assert (0 < GRAVITY * MARS_MASS * d * m * / MAX_THRUST)
      by (apply Rmult_lt_0_compat; lra).
    lra.
  - rewrite autopilot_acceleration_on_axis by (assumption || lra).
    rewrite Rabs_left by lra.
    assert (Hd : 0 < / (y (position s) * y (position s)))
      by (apply Rinv_0_lt_compat; nra).
    replace (- (GRAVITY * MARS_MASS) / (- y (position s) * y (position s)))
      with (GRAVITY * MARS_MASS * / (y (position s) * y (position s)))
      by (field; lra).
    set (d := / (y (position s) * y (position s))) in *.
    assert (Hgd : 0 < GRAVITY * MARS_MASS * d) by (apply Rmult_lt_0_compat; lra).
    assert (Hgm : 0 < GRAVITY * MARS_MASS * d * m)
      by (apply Rmult_lt_0_compat; lra).
    apply Rmult_lt_0_compat; lra.
Qed.

End AutopilotSign.

Section AutopilotAtSample.

#[local] Existing Instance Sample.env.

Lemma sample_engine_can_hover : engine_can_hover.
Proof.
  unfold engine_can_hover; simpl.
  unfold Sample.max_thrust, Sample.fuel_density, Sample.fuel_capacity,
    Sample.unloaded_lander_mass, Sample.gravity, Sample.mars_mass,
    Sample.mars_radius.
  repeat split; lra.
Qed.

Lemma sample_on_axis (side h vy : R) (s0 : state) :
  let s := Sample.on_axis side h vy s0 in
  x (position s) = 0 /\ z (position s) = 0
  /\ y (position s) = side * (Sample.mars_radius + h)
  /\ y (velocity s) = vy /\ fuel s = fuel s0.
Proof. repeat split. Qed.

Lemma sample_full_mass (s0 : state) :
  fuel s0 = 1 ->
  0 < fuel s0 * FUEL_CAPACITY * FUEL_DENSITY + UNLOADED_LANDER_MASS.
Proof.
  intros ->. destruct sample_masses as (-> & -> & ->). lra.
Qed.

(** C3, counterexample.  The lander at rest 2000 m above the surface on
    the positive y axis, with a full tank: the commanded throttle is
    negative. *)
Lemma autopilot_throttle_negative :
  let s := Sample.on_axis 1 2000 0 (Sample.started 1) in
  throttle (autopilot s) < 0
  /\ ~ (0 <= throttle (autopilot s) <= 1).
Proof.
  intros s.
  destruct (sample_on_axis 1 2000 0 (Sample.started 1))
    as (Hx & Hz & Hy & Hv & Hf).
  fold s in Hx, Hz, Hy, Hv, Hf.
  assert (Hq : autopilot_force s / MAX_THRUST < 0).
  { apply (autopilot_force_sign s sample_engine_can_hover Hx Hz).
    - rewrite Hf. apply sample_full_mass. reflexivity.
    - rewrite Hy. unfold Sample.mars_radius. lra. }
  assert (Ha : autopilot_alt s = 2000).
  { unfold autopilot_alt. rewrite Hy.
    rewrite Rabs_right by (unfold Sample.mars_radius; lra).
    simpl. lra. }
  assert (Hk : autopilot_scaling s = 0.5).
  { unfold autopilot_scaling. rewrite Ha.
    destruct (Rlt_dec ((4000 - 2000) / 4000) 0); lra. }
  assert (Ht : throttle (autopilot s) = autopilot_force s / MAX_THRUST * 0.5).
  { rewrite autopilot_throttle. cbv zeta. unfold autopilot_baseline.
    rewrite Ha, Hv, Hk.
    destruct (Rlt_dec 2000 300); [lra|].
    destruct (Rlt_dec 0 0); [lra|reflexivity]. }
  rewrite Ht. lra.
Qed.

(** C4, counterexample.  The lander 1000 m above the surface on the
    positive y axis, climbing at 1 m/s: the vertical velocity component is
    positive and the altitude is above 300 m, and the throttle is not 0. *)
Lemma autopilot_no_cutoff_when_velocity_y_positive :
  let s := Sample.on_axis 1 1000 1 (Sample.started 1) in
  0 < y (velocity s)
  /\ 300 <= autopilot_alt s
  /\ throttle (autopilot s) <> 0.
Proof.
  intros s.
  destruct (sample_on_axis 1 1000 1 (Sample.started 1))
    as (Hx & Hz & Hy & Hv & Hf).
  fold s in Hx, Hz, Hy, Hv, Hf.
  assert (Hq : autopilot_force s / MAX_THRUST < 0).
  { apply (autopilot_force_sign s sample_engine_can_hover Hx Hz).
    - rewrite Hf. apply sample_full_mass. reflexivity.
    - rewrite Hy. unfold Sample.mars_radius. lra. }
  assert (Ha : autopilot_alt s = 1000).
  { unfold autopilot_alt. rewrite Hy.
    rewrite Rabs_right by (unfold Sample.mars_radius; lra).
    simpl. lra. }
  assert (Hk : autopilot_scaling s = 0.75).
  { unfold autopilot_scaling. rewrite Ha.
    destruct (Rlt_dec ((4000 - 1000) / 4000) 0); lra. }
  assert (Ht : throttle (autopilot s) = autopilot_force s / MAX_THRUST * 0.75).
  { rewrite autopilot_throttle. cbv zeta. unfold autopilot_baseline.
    rewrite Ha, Hv, Hk.
    destruct (Rlt_dec 1000 300); [lra|].
    destruct (Rlt_dec 1 0); [lra|reflexivity]. }
  rewrite Ht, Hv, Ha. repeat split; lra.
Qed.

(** C5, counterexample.  Scenario 1 brought down to 100 m, descending at
    1 m/s (velocity.y = 1, inside the band from 0.6 to 3): the throttle is
    half of requiredForce/MAX_THRUST, which is not half of the baseline,
    the baseline carrying the gain 3900/4000. *)
Lemma autopilot_gentle_band_ignores_scaling :
  let s := Sample.on_axis (-1) 100 1 (Sample.started 1) in
  autopilot_alt s < 300
  /\ 0.6 < y (velocity s) < 3
  /\ throttle (autopilot s) <> autopilot_baseline s * 0.5.
Proof.
  intros s.
  destruct (sample_on_axis (-1) 100 1 (Sample.started 1))
    as (Hx & Hz & Hy & Hv & Hf).
  fold s in Hx, Hz, Hy, Hv, Hf.
  assert (Hq : 0 < autopilot_force s / MAX_THRUST).
  { apply (autopilot_force_sign s sample_engine_can_hover Hx Hz).
    - rewrite Hf. apply sample_full_mass. reflexivity.
    - rewrite Hy. unfold Sample.mars_radius. lra. }
  assert (Ha : autopilot_alt s = 100).
  { unfold autopilot_alt. rewrite Hy.
    rewrite Rabs_left by (unfold Sample.mars_radius; lra).
    simpl. lra. }
  assert (Hk : autopilot_scaling s = 0.975).
  { unfold autopilot_scaling. rewrite Ha.
    destruct (Rlt_dec ((4000 - 100) / 4000) 0); lra. }
  assert (Hlow : autopilot_alt s < 300) by lra.
  assert (Hband : 0.6 < y (velocity s) < 3) by (rewrite Hv; lra).
  assert (Ht : throttle (autopilot s) = autopilot_force s / MAX_THRUST * 0.5).
  { rewrite autopilot_throttle. cbv zeta. rewrite Ha, Hv.
    destruct (Rlt_dec 100 300); [|lra].
    destruct (Rgt_dec 1 0.6); [|lra].
    destruct (Rlt_dec 1 3); [|lra].
    destruct (Rgt_dec 1 3); [lra|].
    destruct (Rlt_dec 1 0.6); [lra|reflexivity]. }
  rewrite Ht. unfold autopilot_baseline. rewrite Hk.
  repeat split; lra.
Qed.

(** C8, counterexample.  At the start of scenario 0 the lander is on the
    x axis at 1.2 radii from the centre, 0.2 radii above the surface; the
    altitude the autopilot computes is minus one radius. *)
Lemma autopilot_alt_off_axis :
  let s := Sample.started 0 in
  autopilot_alt s = - MARS_RADIUS
  /\ abs (position s) - MARS_RADIUS = 0.2 * MARS_RADIUS
  /\ autopilot_alt s <> abs (position s) - MARS_RADIUS.
Proof.
  intros s.
  assert (Hp : position s = mkvec (1.2 * Sample.mars_radius) 0.0 0.0)
    by reflexivity.
  assert (Ha : autopilot_alt s = - MARS_RADIUS).
  { unfold autopilot_alt. rewrite Hp. simpl y.
    replace 0.0 with 0 by lra. rewrite Rabs_R0. lra. }
  assert (Hb : abs (position s) - MARS_RADIUS = 0.2 * MARS_RADIUS).
  { rewrite abs_on_x_axis by (rewrite Hp; simpl; lra).
    rewrite Hp. simpl x.
    rewrite Rabs_right by (unfold Sample.mars_radius; lra).
    simpl. lra. }
  rewrite Ha, Hb. repeat split. simpl. unfold Sample.mars_radius. lra.
Qed.

(** The throttle bound needs a non-negative altitude: on the surface
    but off the y axis (y = -0.6 radii, z = 0.8 radii), with velocity.y
    exactly 3, no band applies, the gain is above 300 and the throttle is
    above 1. *)
Lemma autopilot_throttle_above_one :
  let s :=
    set_velocity (mkvec 0 3 0)
      (set_position
         (mkvec 0 (-0.6 * Sample.mars_radius) (0.8 * Sample.mars_radius))
         (Sample.started 1)) in
  abs (position s) = MARS_RADIUS
  /\ 1 < throttle (autopilot s).
Proof.
  intros s.
  assert (Hp2 : abs2 (position s) = Sample.mars_radius * Sample.mars_radius).
  { unfold abs2; simpl. lra. }
  assert (Hr : 0 < Sample.mars_radius) by (unfold Sample.mars_radius; lra).
  assert (Hp : abs (position s) = Sample.mars_radius).
  { unfold abs. rewrite Hp2. apply sqrt_square. lra. }
  assert (Hq : autopilot_force s / MAX_THRUST = 0.4).
  { unfold autopilot_force.
    rewrite autopilot_acceleration_y by (rewrite Hp2; nra).
    rewrite Hp, Hp2. destruct sample_masses as (-> & -> & ->).
    simpl. unfold Sample.max_thrust, Sample.fuel_density,
      Sample.fuel_capacity, Sample.unloaded_lander_mass.
    unfold Sample.gravity, Sample.mars_mass, Sample.mars_radius. lra. }
  assert (Ha : autopilot_alt s = -0.4 * Sample.mars_radius).
  { unfold autopilot_alt; simpl. rewrite Rabs_left by lra. lra. }
  assert (Hk : 300 < autopilot_scaling s).
  { unfold autopilot_scaling. rewrite Ha.
    destruct (Rlt_dec ((4000 - -0.4 * Sample.mars_radius) / 4000) 0);
      unfold Sample.mars_radius in *; lra. }
  split; [exact Hp|].
  rewrite autopilot_throttle. cbv zeta. unfold autopilot_baseline.
  rewrite Hq, Ha. simpl y.
  destruct (Rlt_dec 3 0); [lra|].
  destruct (Rlt_dec (-0.4 * Sample.mars_radius) 300); [|lra].
  destruct (Rgt_dec 3 0.6); [|lra].
  destruct (Rlt_dec 3 3); [lra|].
  destruct (Rgt_dec 3 3); [lra|].
  destruct (Rlt_dec 3 0.6); lra.
Qed.

End AutopilotAtSample.

Section Drag.

Context {H : lander_h}.

Lemma abs2_pos_of_nonzero (v : vector3d) : v <> mkvec 0 0 0 -> 0 < abs2 v.
Proof.
  intros Hv. destruct (Rlt_dec 0 (abs2 v)) as [L|N]; [exact L|].
  exfalso; apply Hv. pose proof (abs2_nonneg v) as Hn.
  assert (E : abs2 v = 0) by lra. unfold abs2 in E.
  assert (Hx : x v * x v = 0) by nra.
  assert (Hy : y v * y v = 0) by nra.
  assert (Hz : z v * z v = 0) by nra.
  apply vector3d_eq; simpl; apply Rsqr_0_uniq; assumption.
Qed.

Lemma drag_without_air (pos vel : vector3d) :
  atmospheric_density pos = 0 ->
  self_drag pos vel = mkvec 0 0 0 /\ para_drag pos vel = mkvec 0 0 0.
Proof.
  intros E. unfold self_drag, para_drag. rewrite E.
  split; apply vector3d_eq; simpl; ring.
Qed.

Lemma abs_zero_vector : abs (mkvec 0 0 0) = 0.
Proof.
  unfold abs, abs2; simpl.
  replace (0 * 0 + 0 * 0 + 0 * 0) with 0 by ring. apply sqrt_0.
Qed.

(** In air, both drag vectors are a non-positive multiple of the unit
    velocity, and the parachute's multiple is negative. *)
Lemma drag_coefficients (pos vel : vector3d) :
  0 < atmospheric_density pos ->
  0 < DRAG_COEF_CHUTE -> 0 <= DRAG_COEF_LANDER -> LANDER_SIZE <> 0 ->
  0 < abs2 vel ->
  exists a b : R,
    a <= 0 /\ b < 0
    /\ self_drag pos vel = a *: norm vel
    /\ self_drag pos vel +: para_drag pos vel = (a + b) *: norm vel.
Proof.
  intros Hrho Hc Hl Hs Hv.
  exists (-0.5 * atmospheric_density pos * DRAG_COEF_LANDER
          * (3.1415 * LANDER_SIZE ^ 2) * abs2 vel).
  exists (-0.5 * atmospheric_density pos * DRAG_COEF_CHUTE
          * (LANDER_SIZE * 2) ^ 2 * abs2 vel * 5).
  assert (Hs2 : 0 < LANDER_SIZE ^ 2) by (simpl; nra).
  assert (Hs4 : 0 < (LANDER_SIZE * 2) ^ 2) by (simpl; nra).
  set (rho := atmospheric_density pos) in *.
  set (l2 := LANDER_SIZE ^ 2) in *. set (l4 := (LANDER_SIZE * 2) ^ 2) in *.
  set (w := abs2 vel) in *.
  repeat split.
  - assert (0 <= rho * DRAG_COEF_LANDER) by (apply Rmult_le_pos; lra).
    assert (0 <= rho * DRAG_COEF_LANDER * (3.1415 * l2))
      by (apply Rmult_le_pos; lra).
    assert (0 <= rho * DRAG_COEF_LANDER * (3.1415 * l2) * w)
      by (apply Rmult_le_pos; lra).
    lra.
  - assert (0 < rho * DRAG_COEF_CHUTE) by (apply Rmult_lt_0_compat; lra).
    assert (0 < rho * DRAG_COEF_CHUTE * l4)
      by (apply Rmult_lt_0_compat; lra).
    assert (0 < rho * DRAG_COEF_CHUTE * l4 * w)
      by (apply Rmult_lt_0_compat; lra).
    lra.
  - unfold self_drag, para_drag. fold rho l2 l4 w.
    apply vector3d_eq; simpl; ring.
Qed.

End Drag.

(** C6, as amended.  With status DEPLOYED the drag used by
    [acceleration] is the skin drag plus the parachute drag, and with
    status NOT_DEPLOYED it is the skin drag alone.  For a nonzero
    velocity, at a position where the atmospheric density is positive
    (and with a positive chute coefficient, a non-negative lander
    coefficient and a nonzero lander size), the first is strictly larger
    in magnitude than the second. *)
Theorem parachute_adds_to_skin_drag
    {H : lander_h} (sd sn : state) (pos vel : vector3d) :
  parachute_status sd = DEPLOYED ->
  parachute_status sn = NOT_DEPLOYED ->
  vel <> mkvec 0 0 0 ->
  0 < atmospheric_density pos ->
  0 < DRAG_COEF_CHUTE -> 0 <= DRAG_COEF_LANDER -> LANDER_SIZE <> 0 ->
  acceleration_drag sd pos vel = self_drag pos vel +: para_drag pos vel
  /\ acceleration_drag sn pos vel = self_drag pos vel
  /\ abs (acceleration_drag sn pos vel) < abs (acceleration_drag sd pos vel).
Proof.
  intros Hd Hn Hv Hrho Hc Hl Hs.
  rewrite (drag_deployed sd pos vel Hd), (drag_not_deployed sn pos vel Hn).
  split; [reflexivity|]. split; [reflexivity|].
  pose proof (abs2_pos_of_nonzero vel Hv) as Hv2.
  destruct (drag_coefficients pos vel Hrho Hc Hl Hs Hv2)
    as (a & b & Ha & Hb & -> & ->).
  unfold abs. rewrite !abs2_smul, (abs2_norm vel Hv2).
  apply sqrt_lt_1_alt. nra.
Qed.

(** ** Evaluations in the concrete environment *)

Section Evaluations.

#[local] Existing Instance Sample.env.

Lemma sample_density_in_orbit :
  atmospheric_density (position (Sample.started 0)) = 0.
Proof.
  assert (Hp : position (Sample.started 0)
               = mkvec (1.2 * Sample.mars_radius) 0.0 0.0) by reflexivity.
  change (Sample.density (position (Sample.started 0)) = 0).
  unfold Sample.density.
  rewrite abs_on_x_axis by (rewrite Hp; simpl; lra).
  rewrite Hp; simpl x.
  rewrite Rabs_right by (unfold Sample.mars_radius; lra).
  cbv zeta.
  destruct (Rgt_dec (1.2 * Sample.mars_radius - Sample.mars_radius)
              Sample.exosphere) as [_|N].
  - lra.
  - exfalso; apply N. unfold Sample.mars_radius, Sample.exosphere. lra.
Qed.

(** C6, counterexample.  Scenario 0, the circular orbit 0.2 radii above
    the surface, is outside the atmosphere: the velocity is not zero, the
    density is, and the drag has magnitude 0 with the parachute deployed
    as well as without it. *)
Lemma parachute_drag_vanishes_in_orbit :
  let sn := Sample.started 0 in
  let sd := set_parachute_status DEPLOYED sn in
  let pos := position sn in
  let vel := velocity sn in
  vel <> mkvec 0 0 0
  /\ parachute_status sd = DEPLOYED
  /\ parachute_status sn = NOT_DEPLOYED
  /\ abs (acceleration_drag sd pos vel) = 0
  /\ abs (acceleration_drag sn pos vel) = 0
  /\ ~ abs (acceleration_drag sn pos vel) < abs (acceleration_drag sd pos vel).
Proof.
  intros sn sd pos vel.
  destruct (drag_without_air pos vel sample_density_in_orbit) as [Hs Hp].
  assert (Hd : abs (acceleration_drag sd pos vel) = 0).
  { rewrite drag_deployed by reflexivity. rewrite Hs, Hp.
    replace (mkvec 0 0 0 +: mkvec 0 0 0) with (mkvec 0 0 0)
      by (apply vector3d_eq; simpl; ring).
    apply abs_zero_vector. }
  assert (Hn : abs (acceleration_drag sn pos vel) = 0).
  { rewrite drag_not_deployed by reflexivity. rewrite Hs.
    apply abs_zero_vector. }
  split.
  - intros E. apply (f_equal y) in E. simpl in E. lra.
  - rewrite Hd, Hn. repeat split; lra.
Qed.

End Evaluations.

(** ** Instances of the theorems *)

Section Instances.

#[local] Existing Instance Sample.env.

Lemma numerical_dynamics_bootstrap_then_central_difference_witness :
  let s := Sample.started 1 in
  let t := Sample.set_simulation_time 0.1 (numerical_dynamics s) in
  previous (numerical_dynamics s) = position s
  /\ previous (numerical_dynamics t) = position t.
Proof.
  intros s t.
  assert (Hk : keeps_trajectory attitude_stabilization).
  { intros u. repeat split. }
  assert (Ht : 0 < simulation_time t) by (simpl; lra).
  destruct (numerical_dynamics_bootstrap_then_central_difference s)
    as (Hboot & _ & Hs).
  destruct (numerical_dynamics_bootstrap_then_central_difference t)
    as (_ & Hsteady & Hr).
  destruct (Hs Hk) as (_ & _ & Es). destruct (Hr Hk) as (_ & _ & Er).
  destruct (Hboot eq_refl) as (Eb & _).
  destruct (Hsteady Ht) as (_ & _ & Et).
  split.
  - rewrite Es. exact Eb.
  - rewrite Er. exact Et.
Defined.

Lemma autopilot_throttle_in_unit_interval_witness :
  let s := Sample.on_axis (-1) 1000 5 (Sample.started 1) in
  0 <= throttle (autopilot (H := Sample.env) s) <= 1.
Proof.
  intros s.
  apply (autopilot_throttle_in_unit_interval (H := Sample.env) s).
  - exact sample_engine_can_hover.
  - simpl. unfold Sample.mars_radius. lra.
  - simpl. lra.
Defined.

Lemma autopilot_cutoff_when_velocity_y_negative_witness :
  let s := Sample.on_axis (-1) 1000 (-2) (Sample.started 1) in
  throttle (autopilot (H := Sample.env) s) = 0.
Proof.
  intros s.
  apply (autopilot_cutoff_when_velocity_y_negative (H := Sample.env) s).
  - simpl. lra.
  - unfold autopilot_alt. simpl.
    rewrite Rabs_left by (unfold Sample.mars_radius; lra). lra.
Defined.

Lemma autopilot_low_altitude_bands_witness :
  let s := Sample.on_axis (-1) 100 5 (Sample.started 1) in
  throttle (autopilot (H := Sample.env) s)
  = autopilot_force (H := Sample.env) s / Sample.max_thrust.
Proof.
  intros s.
  apply (autopilot_low_altitude_bands (H := Sample.env) s).
  - unfold autopilot_alt. simpl.
    rewrite Rabs_left by (unfold Sample.mars_radius; lra). lra.
  - simpl. lra.
Defined.

Lemma autopilot_alt_along_y_witness :
  let s := Sample.started 1 in
  autopilot_alt (H := Sample.env) s = abs (position s) - Sample.mars_radius.
Proof.
  intros s.
  apply (autopilot_alt_along_y (H := Sample.env) s); simpl; lra.
Defined.

Lemma parachute_adds_to_skin_drag_witness :
  let sn := Sample.on_axis (-1) 0 5 (Sample.started 1) in
  let sd := set_parachute_status DEPLOYED sn in
  abs (acceleration_drag (H := Sample.env) sn (position sn) (velocity sn))
  < abs (acceleration_drag (H := Sample.env) sd (position sn) (velocity sn)).
Proof.
  intros sn sd.
  apply (parachute_adds_to_skin_drag (H := Sample.env) sd sn).
  - reflexivity.
  - reflexivity.
  - intros E. apply (f_equal y) in E. simpl in E. lra.
  - change (0 < Sample.density (position sn)). unfold Sample.density.
    rewrite abs_on_y_axis by reflexivity. simpl y.
    rewrite Rabs_left by (unfold Sample.mars_radius; lra). cbv zeta.
    destruct (Rgt_dec (- (-1 * (Sample.mars_radius + 0)) - Sample.mars_radius)
                Sample.exosphere) as [G|_].
    + unfold Sample.exosphere in G. lra.
    + destruct (Rlt_dec (- (-1 * (Sample.mars_radius + 0)) - Sample.mars_radius)
                  0.0) as [L|_]; [lra|].
      apply Rmult_lt_0_compat; [lra | apply exp_pos].
  - simpl. lra.
  - simpl. lra.
  - simpl. lra.
Defined.

End Instances.

(** * Further properties *)

(** ** Vectors, continued *)

Lemma vdiv_as_smul (v : vector3d) (k : R) : v :/ k = (/ k) *: v.
Proof. apply vector3d_eq; simpl; unfold Rdiv; ring. Qed.

Lemma smul_smul (j k : R) (v : vector3d) : j *: (k *: v) = (j * k) *: v.
Proof. apply vector3d_eq; simpl; ring. Qed.

Lemma abs_smul (k : R) (v : vector3d) : abs (k *: v) = Rabs k * abs v.
Proof.
  unfold abs. rewrite abs2_smul.
  rewrite sqrt_mult; [|nra|apply abs2_nonneg].
  f_equal. rewrite <- sqrt_Rsqr_abs. reflexivity.
Qed.

Lemma abs_norm (v : vector3d) : 0 < abs2 v -> abs (norm v) = 1.
Proof.
  intros Hv. unfold abs. rewrite (abs2_norm v Hv). apply sqrt_1.
Qed.

Lemma abs2_zero_vector (v : vector3d) : abs2 v = 0 -> v = mkvec 0 0 0.
Proof.
  intros E. destruct (Rlt_dec 0 (abs2 v)) as [L|N]; [lra|].
  unfold abs2 in E.
  assert (Hx : x v * x v = 0) by nra.
  assert (Hy : y v * y v = 0) by nra.
  assert (Hz : z v * z v = 0) by nra.
  apply vector3d_eq; simpl; apply Rsqr_0_uniq; assumption.
Qed.

Lemma abs2_of_abs_zero (v : vector3d) : abs v = 0 -> abs2 v = 0.
Proof. intros E. rewrite <- abs_sqr, E. ring. Qed.

Lemma norm_smul (k : R) (v : vector3d) : 0 < k -> norm (k *: v) = norm v.
Proof.
  intros Hk. unfold norm. rewrite abs_smul, (Rabs_right k) by lra.
  pose proof (abs_nonneg v) as Hn.
  destruct (Req_dec_T (abs v) 0) as [E|N].
  - rewrite E, Rmult_0_r.
    destruct (Req_dec_T 0 0) as [_|F]; [|congruence].
    rewrite (abs2_zero_vector v (abs2_of_abs_zero v E)).
    apply vector3d_eq; simpl; ring.
  - destruct (Req_dec_T (k * abs v) 0) as [F|_].
    + exfalso. assert (0 < k * abs v) by (apply Rmult_lt_0_compat; lra). lra.
    + apply vector3d_eq; simpl; field; split; lra.
Qed.

(** ** acceleration, continued *)

Section Forces.

Context {H : lander_h}.

Lemma a_gravity_radial (pos : vector3d) :
  0 < abs2 pos ->
  a_gravity pos
  = (- (GRAVITY * MARS_MASS) / (abs pos * abs2 pos)) *: pos.
Proof.
  intros Hp. pose proof (abs_pos pos Hp) as Ha.
  unfold a_gravity. rewrite norm_nonzero by assumption.
  apply vector3d_eq; simpl; field; split; lra.
Qed.

End Forces.

(** X1.  Gravity (line 26) is an inverse-square attraction: away from
    the origin, the gravitational acceleration is a non-positive multiple
    of the position vector and its magnitude is
    GRAVITY * MARS_MASS / |position|^2. *)
Theorem a_gravity_inverse_square {H : lander_h} (pos : vector3d) :
  0 <= GRAVITY * MARS_MASS ->
  pos <> mkvec 0 0 0 ->
  (exists k : R, 0 <= k /\ a_gravity pos = (- k) *: pos)
  /\ abs (a_gravity pos) = GRAVITY * MARS_MASS / abs2 pos.
Proof.
  intros Hg Hne.
  assert (Hp : 0 < abs2 pos).
  { destruct (Rlt_dec 0 (abs2 pos)) as [L|N]; [exact L|].
    exfalso; apply Hne, abs2_zero_vector.
    pose proof (abs2_nonneg pos); lra. }
  pose proof (abs_pos pos Hp) as Ha. pose proof (abs_sqr pos) as Hq.
  assert (Hi : 0 < / (abs pos * abs2 pos)).
  { apply Rinv_0_lt_compat, Rmult_lt_0_compat; assumption. }
  rewrite (a_gravity_radial pos Hp). split.
  - exists (GRAVITY * MARS_MASS / (abs pos * abs2 pos)). split.
    + apply Rmult_le_pos; lra.
    + f_equal. unfold Rdiv. ring.
  - rewrite abs_smul, Rabs_left1.
    + field. split; lra.
    + unfold Rdiv. 
      assert (0 <= GRAVITY * MARS_MASS * / (abs pos * abs2 pos))
        by (apply Rmult_le_pos; lra).
      lra.
Qed.

Section DragShape.

Context {H : lander_h}.

Lemma abs_along_velocity (k : R) (v : vector3d) :
  0 <= k -> abs ((- (k * abs2 v)) *: norm v) = k * abs2 v.
Proof.
  intros Hk. pose proof (abs2_nonneg v) as Hn.
  assert (Hkv : 0 <= k * abs2 v) by (apply Rmult_le_pos; assumption).
  rewrite abs_smul, Rabs_left1 by lra.
  destruct (Rlt_dec 0 (abs2 v)) as [L|N].
  - rewrite (abs_norm v L). ring.
  - assert (E : abs2 v = 0) by lra. rewrite E. ring.
Qed.

Lemma self_drag_shape (pos vel : vector3d) :
  self_drag pos vel
  = (- (0.5 * atmospheric_density pos * DRAG_COEF_LANDER * 3.1415
        * LANDER_SIZE ^ 2 * abs2 vel)) *: norm vel.
Proof.
  unfold self_drag. f_equal.
  replace (-0.5) with (Ropp 0.5) by lra. ring.
Qed.

Lemma deployed_drag_shape (pos vel : vector3d) :
  self_drag pos vel +: para_drag pos vel
  = (- (0.5 * atmospheric_density pos
        * (3.1415 * DRAG_COEF_LANDER + 20 * DRAG_COEF_CHUTE)
        * LANDER_SIZE ^ 2 * abs2 vel)) *: norm vel.
Proof.
  unfold self_drag, para_drag.
  replace (-0.5) with (Ropp 0.5) by lra.
  apply vector3d_eq; simpl; ring.
Qed.

Lemma self_drag_scaled (c : R) (pos vel : vector3d) :
  0 < c -> self_drag pos (c *: vel) = (c * c) *: self_drag pos vel.
Proof.
  intros Hc. unfold self_drag.
  rewrite (norm_smul c vel Hc), abs2_smul, smul_smul. f_equal. ring.
Qed.

Lemma para_drag_scaled (c : R) (pos vel : vector3d) :
  0 < c -> para_drag pos (c *: vel) = (c * c) *: para_drag pos vel.
Proof.
  intros Hc. unfold para_drag.
  rewrite (norm_smul c vel Hc), abs2_smul.
  apply vector3d_eq; simpl; ring.
Qed.

End DragShape.

(** X2.  With the parachute deployed or not deployed, the drag (lines 29
    to 34) is k |v|^2 in magnitude and points against the unit velocity,
    with k = 0.5 density (3.1415 DRAG_COEF_LANDER) LANDER_SIZE^2 without
    the parachute and
    k = 0.5 density (3.1415 DRAG_COEF_LANDER + 20 DRAG_COEF_CHUTE)
    LANDER_SIZE^2 with it; this holds at zero velocity too, where the drag
    is zero. *)
Theorem drag_opposes_velocity_quadratically
    {H : lander_h} (s : state) (pos vel : vector3d) :
  0 <= atmospheric_density pos ->
  0 <= DRAG_COEF_LANDER -> 0 <= DRAG_COEF_CHUTE ->
  let area :=
    if parachute_status_eqb (parachute_status s) DEPLOYED
    then 3.1415 * DRAG_COEF_LANDER + 20 * DRAG_COEF_CHUTE
    else 3.1415 * DRAG_COEF_LANDER in
  let k := 0.5 * atmospheric_density pos * area * LANDER_SIZE ^ 2 in
  parachute_status s <> STATUS_OTHER ->
  0 <= k
  /\ acceleration_drag s pos vel = (- (k * abs2 vel)) *: norm vel
  /\ abs (acceleration_drag s pos vel) = k * abs2 vel.
Proof.
  intros Hrho Hl Hc area k Hs.
  assert (Hsq : 0 <= LANDER_SIZE ^ 2) by (simpl; nra).
  assert (Ha : 0 <= area).
  { subst area. destruct (parachute_status_eqb _ _); lra. }
  assert (Hk : 0 <= k).
  { subst k.
    apply Rmult_le_pos; [apply Rmult_le_pos; [apply Rmult_le_pos|]|]; lra. }
  assert (E : acceleration_drag s pos vel = (- (k * abs2 vel)) *: norm vel).
  { subst k area. destruct (parachute_status s) eqn:Ep.
    - rewrite (drag_not_deployed s pos vel Ep), self_drag_shape.
      simpl; first [reflexivity | f_equal; ring].
    - rewrite (drag_deployed s pos vel Ep), deployed_drag_shape.
      simpl; first [reflexivity | f_equal; ring].
    - congruence. }
  split; [exact Hk|]. split; [exact E|].
  rewrite E. apply abs_along_velocity, Hk.
Qed.

(** X3.  The drag is quadratic in the speed: multiplying the velocity by
    c > 0 multiplies the drag vector by c^2, with the parachute deployed
    or not. *)
Theorem drag_scales_with_square_of_speed
    {H : lander_h} (s : state) (c : R) (pos vel : vector3d) :
  0 < c ->
  parachute_status s <> STATUS_OTHER ->
  acceleration_drag s pos (c *: vel)
  = (c * c) *: acceleration_drag s pos vel.
Proof.
  intros Hc Hs. destruct (parachute_status s) eqn:Ep.
  - rewrite !(drag_not_deployed s pos _ Ep). apply self_drag_scaled, Hc.
  - rewrite !(drag_deployed s pos _ Ep).
    rewrite (self_drag_scaled c pos vel Hc), (para_drag_scaled c pos vel Hc).
    apply vector3d_eq; simpl; ring.
  - congruence.
Qed.

(** X4.  At zero velocity there is no drag, whatever the atmospheric
    density and with the parachute deployed or not: the acceleration is
    gravity plus thrust over the mass of line 36. *)
Theorem acceleration_at_rest_has_no_drag
    {H : lander_h} (s : state) (pos : vector3d) :
  parachute_status s <> STATUS_OTHER ->
  acceleration_drag s pos (mkvec 0 0 0) = mkvec 0 0 0
  /\ acceleration s pos (mkvec 0 0 0)
     = a_gravity pos +: thrust_wrt_world s :/ acceleration_mass s.
Proof.
  intros Hs.
  assert (E : acceleration_drag s pos (mkvec 0 0 0) = mkvec 0 0 0).
  { destruct (parachute_status s) eqn:Ep.
    - rewrite (drag_not_deployed s pos _ Ep). unfold self_drag.
      apply vector3d_eq; simpl; unfold abs2; simpl; ring.
    - rewrite (drag_deployed s pos _ Ep). unfold self_drag, para_drag.
      apply vector3d_eq; simpl; unfold abs2; simpl; ring.
    - congruence. }
  split; [exact E|]. unfold acceleration. rewrite E.
  apply vector3d_eq; simpl; unfold Rdiv; ring.
Qed.

(** ** autopilot, continued *)

(** X5.  The autopilot has no memory: the throttle and the gain it sets
    depend on position, velocity and fuel only, not on the previous
    throttle or on the static [scaling]; running it twice is the same as
    running it once. *)
Theorem autopilot_has_no_memory {H : lander_h} (s s' : state) :
  (position s = position s' -> velocity s = velocity s' ->
   fuel s = fuel s' ->
   throttle (autopilot s) = throttle (autopilot s')
   /\ scaling (autopilot s) = scaling (autopilot s'))
  /\ autopilot (autopilot s) = autopilot s.
Proof.
  split.
  - intros Hp Hv Hf.
    assert (Ef : autopilot_force s = autopilot_force s').
    { unfold autopilot_force, autopilot_acceleration. rewrite Hp, Hf.
      reflexivity. }
    assert (Ea : autopilot_alt s = autopilot_alt s').
    { unfold autopilot_alt. rewrite Hp. reflexivity. }
    assert (Ek : autopilot_scaling s = autopilot_scaling s').
    { unfold autopilot_scaling. rewrite Ea. reflexivity. }
    split; [|exact Ek].
    rewrite !autopilot_throttle. unfold autopilot_baseline.
    rewrite Ef, Ea, Ek, Hv. reflexivity.
  - reflexivity.
Qed.

(** X6.  The autopilot writes the throttle and its static [scaling] and
    nothing else: the parachute status, the orientation, the fuel, the
    position and the velocity are as before. *)
Theorem autopilot_changes_throttle_and_scaling_only
    {H : lander_h} (s : state) :
  autopilot s
  = set_throttle (throttle (autopilot s))
      (set_scaling (scaling (autopilot s)) s)
  /\ parachute_status (autopilot s) = parachute_status s
  /\ orientation (autopilot s) = orientation s
  /\ fuel (autopilot s) = fuel s
  /\ position (autopilot s) = position s
  /\ velocity (autopilot s) = velocity s.
Proof. repeat split. Qed.

Lemma autopilot_zero_gain {H : lander_h} (s : state) :
  4000 <= autopilot_alt s ->
  autopilot_scaling s = 0 /\ throttle (autopilot s) = 0.
Proof.
  intros Ha.
  assert (Hk : autopilot_scaling s = 0).
  { unfold autopilot_scaling.
    destruct (Rlt_dec ((4000 - autopilot_alt s) / 4000) 0); lra. }
  split; [exact Hk|].
  rewrite autopilot_throttle. cbv zeta. unfold autopilot_baseline.
  rewrite Hk, Rmult_0_r.
  destruct (Rlt_dec (autopilot_alt s) 300); [lra|].
  destruct (Rlt_dec (y (velocity s)) 0); reflexivity.
Qed.

(** X7.  From 4000 m of altitude (as the autopilot measures it) upwards
    the gain is 0 and the autopilot sets the throttle to 0. *)
Theorem autopilot_idle_from_4000_up {H : lander_h} (s : state) :
  4000 <= autopilot_alt s ->
  scaling (autopilot s) = 0 /\ throttle (autopilot s) = 0.
Proof. exact (autopilot_zero_gain s). Qed.

(** X8.  Whenever velocity.y is negative the autopilot sets the throttle
    to 0, at every altitude. *)
Theorem autopilot_off_while_velocity_y_negative
    {H : lander_h} (s : state) :
  y (velocity s) < 0 -> throttle (autopilot s) = 0.
Proof.
  intros Hv. rewrite autopilot_throttle. cbv zeta.
  repeat match goal with
         | |- context [Rlt_dec ?a ?b] => destruct (Rlt_dec a b)
         | |- context [Rgt_dec ?a ?b] => destruct (Rgt_dec a b)
         end; try reflexivity; lra.
Qed.

(** X9.  On the y axis the force of line 48 is the weight of the lander
    (fuel plus unloaded mass, times GRAVITY * MARS_MASS / y^2): with its
    sign on the negative side of the planet, with the opposite sign on the
    positive side. *)
Theorem autopilot_force_is_weight_on_y_axis {H : lander_h} (s : state) :
  x (position s) = 0 -> z (position s) = 0 ->
  let mass := fuel s * FUEL_CAPACITY * FUEL_DENSITY + UNLOADED_LANDER_MASS in
  let weight :=
    mass * (GRAVITY * MARS_MASS / (y (position s) * y (position s))) in
  (y (position s) < 0 -> autopilot_force s = weight)
  /\ (0 < y (position s) -> autopilot_force s = - weight).
Proof.
  intros Hx Hz mass weight. subst weight. unfold autopilot_force. fold mass.
  split; intros Hy;
    rewrite autopilot_acceleration_on_axis by (assumption || lra).
  - rewrite Rabs_left by lra. field. lra.
  - rewrite Rabs_right by lra. field. lra.
Qed.

(** X10.  The sign of the throttle follows the side of the planet: for
    non-negative GRAVITY * MARS_MASS and mass and a positive MAX_THRUST,
    the autopilot never sets a negative throttle while position.y <= 0 and
    never a positive one while position.y >= 0. *)
Theorem autopilot_throttle_sign {H : lander_h} (s : state) :
  0 <= GRAVITY * MARS_MASS ->
  0 < MAX_THRUST ->
  0 <= fuel s * FUEL_CAPACITY * FUEL_DENSITY + UNLOADED_LANDER_MASS ->
  position s <> mkvec 0 0 0 ->
  (y (position s) <= 0 -> 0 <= throttle (autopilot s))
  /\ (0 <= y (position s) -> throttle (autopilot s) <= 0).
Proof.
  intros Hg Hm Hmass Hne.
  assert (Hp : 0 < abs2 (position s)) by (apply abs2_pos_of_nonzero, Hne).
  pose proof (abs_pos _ Hp) as Ha.
  destruct (autopilot_scaling_range s) as [Hk _].
  assert (Hi : 0 < / (abs (position s) * abs2 (position s))).
  { apply Rinv_0_lt_compat, Rmult_lt_0_compat; assumption. }
  assert (Him : 0 < / MAX_THRUST) by (apply Rinv_0_lt_compat, Hm).
  assert (Hacc : y (autopilot_acceleration s)
                 = - y (position s)
                   * (GRAVITY * MARS_MASS
                      * / (abs (position s) * abs2 (position s)))).
  { rewrite autopilot_acceleration_y by assumption. unfold Rdiv. ring. }
  assert (Hc : 0 <= GRAVITY * MARS_MASS
                    * / (abs (position s) * abs2 (position s)))
    by (apply Rmult_le_pos; lra).
  set (c := GRAVITY * MARS_MASS * / (abs (position s) * abs2 (position s)))
    in *.
  set (m := fuel s * FUEL_CAPACITY * FUEL_DENSITY + UNLOADED_LANDER_MASS)
    in *.
  assert (Hcm : 0 <= c * m * / MAX_THRUST)
    by (apply Rmult_le_pos; [apply Rmult_le_pos|]; lra).
  assert (Hq : autopilot_force s / MAX_THRUST
               = - y (position s) * (c * m * / MAX_THRUST)).
  { unfold autopilot_force. fold m. rewrite Hacc. unfold Rdiv. ring. }
  set (d := c * m * / MAX_THRUST) in *.
  rewrite autopilot_throttle. cbv zeta. unfold autopilot_baseline.
  rewrite Hq. set (k := autopilot_scaling s) in *.
  set (q := - y (position s) * d).
  split; intros Hy.
  - assert (Hq0 : 0 <= q) by (apply Rmult_le_pos; lra).
    assert (Hqk : 0 <= q * k) by (apply Rmult_le_pos; lra).
    repeat match goal with
           | |- context [Rlt_dec ?a ?b] => destruct (Rlt_dec a b)
           | |- context [Rgt_dec ?a ?b] => destruct (Rgt_dec a b)
           end; lra.
  - assert (Hq0 : 0 <= - q).
    { unfold q. replace (- (- y (position s) * d)) with (y (position s) * d)
        by ring. apply Rmult_le_pos; lra. }
    assert (Hqk : 0 <= - q * k) by (apply Rmult_le_pos; lra).
    repeat match goal with
           | |- context [Rlt_dec ?a ?b] => destruct (Rlt_dec a b)
           | |- context [Rgt_dec ?a ?b] => destruct (Rgt_dec a b)
           end; lra.
Qed.

(** ** numerical_dynamics, continued *)

Section IntegratorFrame.

Context {H : lander_h}.

Lemma integration_frame (s : state) :
  simulation_time (integration s) = simulation_time s
  /\ delta_t (integration s) = delta_t s
  /\ fuel (integration s) = fuel s
  /\ throttle (integration s) = throttle s
  /\ orientation (integration s) = orientation s
  /\ parachute_status (integration s) = parachute_status s
  /\ scenario (integration s) = scenario s
  /\ stabilized_attitude (integration s) = stabilized_attitude s
  /\ autopilot_enabled (integration s) = autopilot_enabled s.
Proof.
  unfold integration.
  destruct (Req_dec_T (simulation_time s) 0); repeat split.
Qed.

End IntegratorFrame.

(** X11.  The first two calls.  After the bootstrap call at time 0 and
    one central-difference call (same step dt, not 0), the position is
    position + 2 dt velocity + dt^2 (a0 + a1) and the velocity is
    velocity + dt (a0 + a1) / 2, where a0 and a1 are the accelerations the
    two calls compute: under a constant acceleration a the position is the
    exact one for time 2 dt while the velocity is velocity + a dt, the
    exact one for time dt. *)
Theorem integration_first_two_calls {H : lander_h} (s s1 : state) :
  simulation_time s = 0 ->
  simulation_time s1 <> 0 ->
  delta_t s <> 0 ->
  position s1 = position (integration s) ->
  previous s1 = previous (integration s) ->
  delta_t s1 = delta_t s ->
  let a0 := acceleration s (position s) (velocity s) in
  let a1 := acceleration s1 (position s1) (velocity s1) in
  let dt := delta_t s in
  position (integration s1)
  = position s +: velocity s :* (2 * dt) +: (a0 +: a1) :* (dt * dt)
  /\ velocity (integration s1)
     = velocity s +: (a0 +: a1) :* (dt / 2).
Proof.
  intros Ht Ht1 Hdt Hp Hq Hd a0 a1 dt.
  pose proof (integration_steady s1 Ht1) as E1. cbv zeta in E1.
  fold a1 in E1. clearbody a1.
  pose proof (integration_bootstrap s Ht) as E0. cbv zeta in E0.
  fold a0 dt in E0. clearbody a0.
  rewrite E1. simpl. rewrite Hp, Hq, Hd. rewrite E0. simpl. fold dt.
  split.
  - apply vector3d_eq; simpl; lra.
  - apply vector3d_eq; simpl; replace 0.5 with (1 / 2) by lra;
      field; exact Hdt.
Qed.

(** X13.  The central-difference step is reversible: stepping from the
    same position with the roles of the previous and the next position
    exchanged, under the same acceleration and step, gives back the
    previous position. *)
Theorem central_difference_step_is_reversible
    {H : lander_h} (s r : state) :
  simulation_time s <> 0 ->
  simulation_time r <> 0 ->
  delta_t r = delta_t s ->
  position r = position s ->
  previous r = position (integration s) ->
  acceleration r (position r) (velocity r)
  = acceleration s (position s) (velocity s) ->
  position (integration r) = previous s.
Proof.
  intros Hs Hr Hd Hp Hq Ha.
  rewrite (integration_steady r Hr). simpl.
  rewrite Ha, Hq, Hp, Hd. rewrite (integration_steady s Hs). simpl.
  apply vector3d_eq; simpl; ring.
Qed.

(** ** initialize_simulation, continued *)

Lemma abs_on_z_axis (v : vector3d) :
  x v = 0 -> y v = 0 -> abs v = Rabs (z v).
Proof.
  intros Hx Hy. unfold abs, abs2. rewrite Hx, Hy, <- sqrt_Rsqr_abs.
  f_equal. unfold Rsqr; ring.
Qed.

Section Scenarios.

Context {H : lander_h}.

(** The six indices with a non-empty [case]. *)
Lemma defined_scenario_cases (k : Z) :
  (0 <= k <= 5)%Z ->
  k = 0%Z \/ k = 1%Z \/ k = 2%Z \/ k = 3%Z \/ k = 4%Z \/ k = 5%Z.
Proof. lia. Qed.

Lemma initialize_simulation_cases (s : state) :
  initialize_simulation s = scenario_descriptions s
  \/ exists (p v o : vector3d) (dt : R) (ps : parachute_status_t)
        (sa ae : bool),
      initialize_simulation s
      = scenario_case p v o dt ps sa ae (scenario_descriptions s).
Proof.
  unfold initialize_simulation. rewrite scenario_descriptions_scenario.
  destruct (Z_le_dec 0 (scenario s)) as [L|L];
    [destruct (Z_le_dec (scenario s) 5) as [U|U]|].
  - destruct (defined_scenario_cases _ (conj L U))
      as [E|[E|[E|[E|[E|E]]]]];
      rewrite E; right; do 7 eexists; reflexivity.
  - left. destruct (scenario s) as [|p|p]; [lia| |lia].
    do 4 (try destruct p as [p|p|]); try lia; reflexivity.
  - left. destruct (scenario s) as [|p|p]; [lia|lia|reflexivity].
Qed.

Lemma scenario_case_frame (p v o : vector3d) (dt : R)
    (ps : parachute_status_t) (sa ae : bool) (t : state) :
  let t' := scenario_case p v o dt ps sa ae t in
  fuel t' = fuel t
  /\ throttle t' = throttle t
  /\ simulation_time t' = simulation_time t
  /\ scenario t' = scenario t
  /\ previous t' = previous t
  /\ scaling t' = scaling t
  /\ scenario_description t' = scenario_description t.
Proof. repeat split. Qed.

Lemma scenario_descriptions_frame (s : state) :
  let t := scenario_descriptions s in
  fuel t = fuel s
  /\ throttle t = throttle s
  /\ simulation_time t = simulation_time s
  /\ scenario t = scenario s
  /\ previous t = previous s
  /\ scaling t = scaling s.
Proof. repeat split. Qed.

Lemma initialize_simulation_frame (s : state) :
  fuel (initialize_simulation s) = fuel s
  /\ throttle (initialize_simulation s) = throttle s
  /\ simulation_time (initialize_simulation s) = simulation_time s
  /\ scenario (initialize_simulation s) = scenario s
  /\ previous (initialize_simulation s) = previous s
  /\ scaling (initialize_simulation s) = scaling s
  /\ scenario_description (initialize_simulation s)
     = scenario_description (scenario_descriptions s).
Proof.
  destruct (scenario_descriptions_frame s) as (D1 & D2 & D3 & D4 & D5 & D6).
  destruct (initialize_simulation_cases s)
    as [E|(p & v & o & dt & ps & sa & ae & E)]; rewrite E.
  - exact (conj D1 (conj D2 (conj D3 (conj D4 (conj D5
             (conj D6 eq_refl)))))).
  - destruct (scenario_case_frame p v o dt ps sa ae (scenario_descriptions s))
      as (C1 & C2 & C3 & C4 & C5 & C6 & C7).
    exact (conj (eq_trans C1 D1) (conj (eq_trans C2 D2)
             (conj (eq_trans C3 D3) (conj (eq_trans C4 D4)
                (conj (eq_trans C5 D5) (conj (eq_trans C6 D6) C7)))))).
Qed.

Lemma scenario_case_sets (p v o : vector3d) (dt : R)
    (ps : parachute_status_t) (sa ae : bool) (t : state) :
  let t' := scenario_case p v o dt ps sa ae t in
  position t' = p /\ velocity t' = v /\ orientation t' = o
  /\ delta_t t' = dt /\ parachute_status t' = ps
  /\ stabilized_attitude t' = sa /\ autopilot_enabled t' = ae.
Proof. repeat split. Qed.

(** What [initialize_simulation] reduces to for each non-empty [case]. *)
Lemma initialize_simulation_defined (s : state) :
  let t := scenario_descriptions s in
  (scenario s = 0%Z ->
   initialize_simulation s
   = scenario_case (mkvec (1.2 * MARS_RADIUS) 0.0 0.0)
       (mkvec 0.0 (-3247.087385863725) 0.0) (mkvec 0.0 90.0 0.0)
       0.1 NOT_DEPLOYED false false t)
  /\ (scenario s = 1%Z ->
      initialize_simulation s
      = scenario_case (mkvec 0.0 (- (MARS_RADIUS + 10000.0)) 0.0)
          (mkvec 0.0 0.0 0.0) (mkvec 0.0 0.0 90.0)
          0.1 NOT_DEPLOYED true false t)
  /\ (scenario s = 2%Z ->
      initialize_simulation s
      = scenario_case (mkvec 0.0 0.0 (1.2 * MARS_RADIUS))
          (mkvec 3500.0 0.0 0.0) (mkvec 0.0 0.0 90.0)
          0.1 NOT_DEPLOYED false false t)
  /\ (scenario s = 3%Z ->
      initialize_simulation s
      = scenario_case (mkvec 0.0 0.0 (MARS_RADIUS + LANDER_SIZE / 2.0))
          (mkvec 0.0 0.0 5027.0) (mkvec 0.0 0.0 0.0)
          0.1 NOT_DEPLOYED false false t)
  /\ (scenario s = 4%Z ->
      initialize_simulation s
      = scenario_case (mkvec 0.0 0.0 (MARS_RADIUS + 100000.0))
          (mkvec 4000.0 0.0 0.0) (mkvec 0.0 90.0 0.0)
          0.1 NOT_DEPLOYED false false t)
  /\ (scenario s = 5%Z ->
      initialize_simulation s
      = scenario_case (mkvec 0.0 (- (MARS_RADIUS + EXOSPHERE)) 0.0)
          (mkvec 0.0 0.0 0.0) (mkvec 0.0 0.0 90.0)
          0.1 NOT_DEPLOYED true false t).
Proof.
  intros t. unfold initialize_simulation.
  rewrite scenario_descriptions_scenario. fold t.
  repeat apply conj; intros E; rewrite E; reflexivity.
Qed.

Lemma initialize_simulation_undefined (s : state) :
  (scenario s < 0 \/ 5 < scenario s)%Z ->
  initialize_simulation s = scenario_descriptions s.
Proof.
  intros Hk. unfold initialize_simulation.
  rewrite scenario_descriptions_scenario.
  destruct (scenario s) as [|p|p]; [lia| |reflexivity].
  do 4 (try destruct p as [p|p|]); try lia; reflexivity.
Qed.

Lemma set_scenario_description_at (i : nat) (d : string) (t : state)
    (j : nat) :
  scenario_description (set_scenario_description i d t) j
  = if Nat.eqb j i then d else scenario_description t j.
Proof. reflexivity. Qed.

Lemma scenario_descriptions_at (s : state) (j : nat) :
  scenario_description (scenario_descriptions s) j
  = match j with
    | 0%nat => "circular orbit"%string
    | 1%nat => "descent from 10km"%string
    | 2%nat => "elliptical orbit, thrust changes orbital plane"%string
    | 3%nat =>
        "polar launch at escape velocity (but drag prevents escape)"%string
    | 4%nat =>
        "elliptical orbit that clips the atmosphere and decays"%string
    | 5%nat => "descent from 200km"%string
    | 6%nat | 7%nat | 8%nat | 9%nat => EmptyString
    | _ => scenario_description s j
    end.
Proof.
  unfold scenario_descriptions. cbv zeta.
  rewrite !set_scenario_description_at.
  do 10 (destruct j as [|j]; [reflexivity|]). reflexivity.
Qed.

End Scenarios.


(** X14.  Every scenario with a non-empty case (0 to 5) sets the time step
    to 0.1, the parachute to NOT_DEPLOYED and the autopilot off; attitude
    stabilisation is on exactly in scenarios 1 and 5, the two descents. *)
Theorem initialize_simulation_defined_scenario {H : lander_h} (s : state) :
  (0 <= scenario s <= 5)%Z ->
  let s' := initialize_simulation s in
  delta_t s' = 0.1
  /\ parachute_status s' = NOT_DEPLOYED
  /\ autopilot_enabled s' = false
  /\ (stabilized_attitude s' = true <->
      scenario s = 1%Z \/ scenario s = 5%Z).
Proof.
  intros Hk s'. subst s'.
  destruct (initialize_simulation_defined s)
    as (E0 & E1 & E2 & E3 & E4 & E5).
  destruct (defined_scenario_cases _ Hk) as [E|[E|[E|[E|[E|E]]]]];
    [ rewrite (E0 E) | rewrite (E1 E) | rewrite (E2 E)
    | rewrite (E3 E) | rewrite (E4 E) | rewrite (E5 E) ];
    match goal with
    | |- context [scenario_case ?p ?v ?o ?dt ?ps ?sa ?ae ?t] =>
        destruct (scenario_case_sets p v o dt ps sa ae t)
          as (_ & _ & _ & -> & -> & -> & ->)
    end;
    rewrite E; repeat apply conj; try reflexivity;
    try (intros; discriminate); try (intros; lia);
    try (intros [F|F]; discriminate F); auto.
Qed.

(** X15.  For a scenario 0 to 5 the pose [initialize_simulation] sets
    depends on the scenario index only, not on the state it starts from;
    and for every index, initialising twice gives the pose of initialising
    once. *)
Theorem initialize_simulation_pose_depends_on_index
    {H : lander_h} (s t : state) :
  (scenario s = scenario t -> (0 <= scenario s <= 5)%Z ->
   same_pose (initialize_simulation s) (initialize_simulation t))
  /\ same_pose (initialize_simulation s)
       (initialize_simulation (initialize_simulation s)).
Proof.
  assert (G : forall a b : state,
             scenario a = scenario b -> (0 <= scenario a <= 5)%Z ->
             same_pose (initialize_simulation a) (initialize_simulation b)).
  { intros a b Hab Hk.
    destruct (initialize_simulation_defined a)
      as (A0 & A1 & A2 & A3 & A4 & A5).
    destruct (initialize_simulation_defined b)
      as (B0 & B1 & B2 & B3 & B4 & B5).
    destruct (defined_scenario_cases _ Hk) as [E|[E|[E|[E|[E|E]]]]];
      assert (E' := E); rewrite Hab in E';
      [ rewrite (A0 E), (B0 E') | rewrite (A1 E), (B1 E')
      | rewrite (A2 E), (B2 E') | rewrite (A3 E), (B3 E')
      | rewrite (A4 E), (B4 E') | rewrite (A5 E), (B5 E') ];
      repeat apply conj; reflexivity. }
  split; [apply G|].
  destruct (initialize_simulation_frame s) as (_ & _ & _ & Hsc & _).
  destruct (Z_le_dec 0 (scenario s)) as [L|L];
    [destruct (Z_le_dec (scenario s) 5) as [U|U]|].
  - apply G; [symmetry; exact Hsc | lia].
  - rewrite (initialize_simulation_undefined (initialize_simulation s))
      by (rewrite Hsc; lia).
    apply scenario_descriptions_pose.
  - rewrite (initialize_simulation_undefined (initialize_simulation s))
      by (rewrite Hsc; lia).
    apply scenario_descriptions_pose.
Qed.

(** X16.  [initialize_simulation] never resets the run: fuel, throttle,
    simulation_time, the scenario index and the statics [previous] and
    [scaling] are kept for every index.  It rewrites the ten scenario
    descriptions 0 to 9, independently of the state, and no other; the
    description is empty exactly for the indices 6 to 9. *)
Theorem initialize_simulation_keeps_run_state
    {H : lander_h} (s t : state) :
  (fuel (initialize_simulation s) = fuel s
   /\ throttle (initialize_simulation s) = throttle s
   /\ simulation_time (initialize_simulation s) = simulation_time s
   /\ scenario (initialize_simulation s) = scenario s
   /\ previous (initialize_simulation s) = previous s
   /\ scaling (initialize_simulation s) = scaling s)
  /\ (forall i : nat, (10 <= i)%nat ->
      scenario_description (initialize_simulation s) i
      = scenario_description s i)
  /\ (forall i : nat, (i < 10)%nat ->
      scenario_description (initialize_simulation s) i
      = scenario_description (initialize_simulation t) i)
  /\ (forall i : nat, (i < 10)%nat ->
      (scenario_description (initialize_simulation s) i = EmptyString
       <-> (6 <= i)%nat)).
Proof.
  destruct (initialize_simulation_frame s)
    as (F1 & F2 & F3 & F4 & F5 & F6 & F7).
  destruct (initialize_simulation_frame t) as (_ & _ & _ & _ & _ & _ & G7).
  split; [auto 10|]. rewrite F7, G7. split; [|split].
  - intros i Hi. rewrite scenario_descriptions_at.
    do 10 (destruct i as [|i]; [lia|]). reflexivity.
  - intros i Hi. rewrite !scenario_descriptions_at.
    do 10 (destruct i as [|i]; [reflexivity|]). lia.
  - intros i Hi. rewrite scenario_descriptions_at.
    do 10 (destruct i as [|i];
           [split; [intros F; discriminate F || lia | intros F; lia || reflexivity]|]).
    lia.
Qed.

(** X17.  Every scenario 0 to 5 starts at or above the surface: for
    non-negative MARS_RADIUS, LANDER_SIZE and EXOSPHERE the distance of
    the initial position from the centre is at least MARS_RADIUS. *)
Theorem initialize_simulation_starts_above_surface
    {H : lander_h} (s : state) :
  0 <= MARS_RADIUS -> 0 <= LANDER_SIZE -> 0 <= EXOSPHERE ->
  (0 <= scenario s <= 5)%Z ->
  MARS_RADIUS <= abs (position (initialize_simulation s)).
Proof.
  intros Hr Hl He Hk.
  destruct (initialize_simulation_defined s)
    as (E0 & E1 & E2 & E3 & E4 & E5).
  destruct (defined_scenario_cases _ Hk) as [E|[E|[E|[E|[E|E]]]]];
    [ rewrite (E0 E) | rewrite (E1 E) | rewrite (E2 E)
    | rewrite (E3 E) | rewrite (E4 E) | rewrite (E5 E) ];
    match goal with
    | |- context [scenario_case ?p ?v ?o ?dt ?ps ?sa ?ae ?t] =>
        destruct (scenario_case_sets p v o dt ps sa ae t) as (-> & _)
    end.
  - rewrite abs_on_x_axis by (simpl; lra). simpl x.
    rewrite Rabs_right by lra. lra.
  - rewrite abs_on_y_axis by (simpl; lra). simpl y.
    rewrite Rabs_left1 by lra. lra.
  - rewrite abs_on_z_axis by (simpl; lra). simpl z.
    rewrite Rabs_right by lra. lra.
  - rewrite abs_on_z_axis by (simpl; lra). simpl z.
    rewrite Rabs_right by lra. lra.
  - rewrite abs_on_z_axis by (simpl; lra). simpl z.
    rewrite Rabs_right by lra. lra.
  - rewrite abs_on_y_axis by (simpl; lra). simpl y.
    rewrite Rabs_left1 by lra. lra.
Qed.

(** X18.  The two descents (scenarios 1 and 5) start on the negative y
    axis at or above the surface, where the autopilot's altitude is the
    true one: 10000 m in scenario 1, EXOSPHERE in scenario 5.  Engaged
    there, the autopilot sets the throttle to 0 (in scenario 5 provided
    EXOSPHERE is at least 4000 m). *)
Theorem autopilot_at_start_of_descent {H : lander_h} (s : state) :
  0 <= MARS_RADIUS -> 0 <= EXOSPHERE ->
  scenario s = 1%Z \/ scenario s = 5%Z ->
  let s' := initialize_simulation s in
  x (position s') = 0 /\ z (position s') = 0
  /\ y (position s') <= - MARS_RADIUS
  /\ autopilot_alt s' = (if Z.eqb (scenario s) 1 then 10000 else EXOSPHERE)
  /\ (scenario s = 1%Z \/ 4000 <= EXOSPHERE -> throttle (autopilot s') = 0).
Proof.
  intros Hr He Hk s'. subst s'.
  destruct (initialize_simulation_defined s)
    as (_ & E1 & _ & _ & _ & E5).
  assert (Hz : forall u : state,
             4000 <= autopilot_alt u -> throttle (autopilot u) = 0).
  { intros u Hu. apply (autopilot_zero_gain u Hu). }
  destruct Hk as [E|E]; [rewrite (E1 E)|rewrite (E5 E)]; rewrite E;
    match goal with
    | |- context [scenario_case ?p ?v ?o ?dt ?ps ?sa ?ae ?t] =>
        set (u := scenario_case p v o dt ps sa ae t);
        assert (Hp : position u = p) by reflexivity
    end;
    assert (Ha : autopilot_alt u
                 = Rabs (y (position u)) - MARS_RADIUS) by reflexivity;
    rewrite Hp in Ha |- *; simpl Z.eqb; cbv iota; simpl x; simpl z;
    simpl y in Ha |- *; rewrite Rabs_left1 in Ha by lra;
    assert (Ha' : autopilot_alt u = 10000 \/ autopilot_alt u = EXOSPHERE)
      by (first [left; lra | right; lra]).
  - repeat apply conj; try lra. intros _. apply Hz. lra.
  - repeat apply conj; try lra. intros [F|F]; [discriminate F|].
    apply Hz. lra.
Qed.

(** ** Instances of the further properties *)

Section FurtherInstances.

#[local] Existing Instance Sample.env.

Lemma sample_density_nonneg (pos : vector3d) : 0 <= atmospheric_density pos.
Proof.
  change (0 <= Sample.density pos). unfold Sample.density. cbv zeta.
  destruct (Rgt_dec (abs pos - Sample.mars_radius) Sample.exosphere);
    [lra|].
  destruct (Rlt_dec (abs pos - Sample.mars_radius) 0.0); [lra|].
  apply Rmult_le_pos; [lra | left; apply exp_pos].
Qed.

Lemma sample_gravity_nonneg : 0 <= GRAVITY * MARS_MASS.
Proof. simpl. unfold Sample.gravity, Sample.mars_mass. lra. Qed.

Lemma sample_radius_pos : 0 < MARS_RADIUS.
Proof. simpl. unfold Sample.mars_radius. lra. Qed.

Lemma sample_start_nonzero : position (Sample.started 1) <> mkvec 0 0 0.
Proof.
  intros E. apply (f_equal y) in E. simpl in E.
  unfold Sample.mars_radius in E. lra.
Qed.

Lemma a_gravity_inverse_square_witness :
  let pos := position (Sample.started 1) in
  abs (a_gravity pos) = GRAVITY * MARS_MASS / abs2 pos.
Proof.
  intros pos.
  apply (a_gravity_inverse_square pos sample_gravity_nonneg
           sample_start_nonzero).
Defined.

Lemma drag_opposes_velocity_quadratically_witness :
  let s := set_parachute_status DEPLOYED
             (Sample.on_axis (-1) 1000 5 (Sample.started 1)) in
  abs (acceleration_drag s (position s) (velocity s))
  = 0.5 * atmospheric_density (position s)
    * (3.1415 * DRAG_COEF_LANDER + 20 * DRAG_COEF_CHUTE)
    * LANDER_SIZE ^ 2 * abs2 (velocity s).
Proof.
  intros s.
  apply (drag_opposes_velocity_quadratically s (position s) (velocity s)).
  - apply sample_density_nonneg.
  - simpl. lra.
  - simpl. lra.
  - simpl. discriminate.
Defined.

Lemma drag_scales_with_square_of_speed_witness :
  let s := Sample.on_axis (-1) 1000 5 (Sample.started 1) in
  acceleration_drag s (position s) (2 *: velocity s)
  = (2 * 2) *: acceleration_drag s (position s) (velocity s).
Proof.
  intros s.
  apply (drag_scales_with_square_of_speed s 2 (position s) (velocity s)).
  - lra.
  - simpl. discriminate.
Defined.

Lemma acceleration_at_rest_has_no_drag_witness :
  let s := Sample.started 1 in
  acceleration_drag s (position s) (mkvec 0 0 0) = mkvec 0 0 0.
Proof.
  intros s.
  apply (acceleration_at_rest_has_no_drag s (position s)).
  simpl. discriminate.
Defined.

Lemma set_throttle_keeps (r : R) (t : state) :
  position t = position (set_throttle r t)
  /\ velocity t = velocity (set_throttle r t)
  /\ fuel t = fuel (set_throttle r t).
Proof. repeat split. Qed.

Lemma autopilot_has_no_memory_witness :
  let s := Sample.on_axis (-1) 100 1 (Sample.started 1) in
  throttle (autopilot s) = throttle (autopilot (set_throttle 1 s)).
Proof.
  intros s.
  destruct (set_throttle_keeps 1 s) as (Hp & Hv & Hf).
  exact (proj1 (proj1 (autopilot_has_no_memory s (set_throttle 1 s))
                  Hp Hv Hf)).
Defined.

Lemma autopilot_idle_from_4000_up_witness :
  let s := Sample.on_axis (-1) 5000 20 (Sample.started 1) in
  throttle (autopilot s) = 0.
Proof.
  intros s. apply (autopilot_idle_from_4000_up s).
  unfold autopilot_alt. simpl.
  rewrite Rabs_left by (unfold Sample.mars_radius; lra). lra.
Defined.

Lemma autopilot_off_while_velocity_y_negative_witness :
  let s := Sample.on_axis (-1) 100 (-1) (Sample.started 1) in
  throttle (autopilot s) = 0.
Proof.
  intros s. apply (autopilot_off_while_velocity_y_negative s). simpl. lra.
Defined.

Lemma autopilot_force_is_weight_on_y_axis_witness :
  let s := Sample.on_axis (-1) 100 1 (Sample.started 1) in
  autopilot_force s
  = (fuel s * FUEL_CAPACITY * FUEL_DENSITY + UNLOADED_LANDER_MASS)
    * (GRAVITY * MARS_MASS / (y (position s) * y (position s))).
Proof.
  intros s.
  apply (autopilot_force_is_weight_on_y_axis s); try reflexivity.
  simpl. unfold Sample.mars_radius. lra.
Defined.

Lemma autopilot_throttle_sign_witness :
  let s := Sample.on_axis (-1) 100 1 (Sample.started 1) in
  0 <= throttle (autopilot s).
Proof.
  intros s.
  apply (autopilot_throttle_sign s).
  - exact sample_gravity_nonneg.
  - exact sample_max_thrust_pos.
  - left. apply sample_full_mass. reflexivity.
  - intros E. apply (f_equal y) in E. simpl in E.
    unfold Sample.mars_radius in E. lra.
  - simpl. unfold Sample.mars_radius. lra.
Defined.

Lemma sample_set_simulation_time_keeps (r : R) (t : state) :
  position (Sample.set_simulation_time r t) = position t
  /\ previous (Sample.set_simulation_time r t) = previous t
  /\ delta_t (Sample.set_simulation_time r t) = delta_t t
  /\ simulation_time (Sample.set_simulation_time r t) = r.
Proof. repeat split. Qed.

Lemma sample_set_previous_keeps (v : vector3d) (t : state) :
  simulation_time (set_previous v t) = simulation_time t
  /\ delta_t (set_previous v t) = delta_t t
  /\ position (set_previous v t) = position t
  /\ previous (set_previous v t) = v
  /\ acceleration (set_previous v t) (position (set_previous v t))
       (velocity (set_previous v t))
     = acceleration t (position t) (velocity t).
Proof. repeat split. Qed.

Lemma sample_started_settings (k : Z) :
  simulation_time (Sample.started k) = 0
  /\ scenario (Sample.started k) = k
  /\ scenario (Sample.fresh k) = k.
Proof.
  unfold Sample.started.
  destruct (initialize_simulation_frame (Sample.fresh k))
    as (_ & _ & -> & -> & _).
  repeat split.
Qed.

Lemma sample_started_step (k : Z) :
  (0 <= k <= 5)%Z ->
  delta_t (Sample.started k) = 0.1
  /\ stabilized_attitude (Sample.started k) = orb (Z.eqb k 1) (Z.eqb k 5).
Proof.
  intros Hk. unfold Sample.started.
  destruct (initialize_simulation_defined (Sample.fresh k))
    as (E0 & E1 & E2 & E3 & E4 & E5).
  destruct (defined_scenario_cases _ Hk) as [E|[E|[E|[E|[E|E]]]]];
    subst k;
    [ rewrite (E0 eq_refl) | rewrite (E1 eq_refl) | rewrite (E2 eq_refl)
    | rewrite (E3 eq_refl) | rewrite (E4 eq_refl) | rewrite (E5 eq_refl) ];
    split; reflexivity.
Qed.

Lemma integration_first_two_calls_witness :
  let s := Sample.started 1 in
  let s1 := Sample.set_simulation_time 0.1 (integration s) in
  velocity (integration s1)
  = velocity s
    +: (acceleration s (position s) (velocity s)
        +: acceleration s1 (position s1) (velocity s1))
       :* (delta_t s / 2).
Proof.
  intros s s1.
  destruct (sample_started_settings 1) as (Ht & _).
  destruct (sample_started_step 1 ltac:(lia)) as (Hd & _).
  destruct (sample_set_simulation_time_keeps 0.1 (integration s))
    as (Hp & Hq & Hdt & Ht1).
  destruct (integration_frame s) as (_ & Hd' & _).
  apply (integration_first_two_calls s s1).
  - exact Ht.
  - fold s1 in Ht1. rewrite Ht1. lra.
  - fold s in Hd. rewrite Hd. lra.
  - exact Hp.
  - exact Hq.
  - fold s1 in Hdt. rewrite Hdt. exact Hd'.
Defined.

Lemma central_difference_step_is_reversible_witness :
  let s := Sample.set_simulation_time 0.1 (Sample.started 0) in
  let r := set_previous (position (integration s)) s in
  position (integration r) = previous s.
Proof.
  intros s r.
  destruct (sample_set_simulation_time_keeps 0.1 (Sample.started 0))
    as (_ & _ & _ & Ht).
  destruct (sample_set_previous_keeps (position (integration s)) s)
    as (Kt & Kd & Kp & Kq & Ka).
  fold s in Ht. fold r in Kt, Kd, Kp, Kq, Ka.
  apply (central_difference_step_is_reversible s r).
  - rewrite Ht. lra.
  - rewrite Kt, Ht. lra.
  - exact Kd.
  - exact Kp.
  - exact Kq.
  - exact Ka.
Defined.

Lemma initialize_simulation_defined_scenario_witness :
  delta_t (initialize_simulation (Sample.fresh 3)) = 0.1.
Proof.
  apply (initialize_simulation_defined_scenario (Sample.fresh 3)).
  destruct (sample_started_settings 3) as (_ & _ & ->). lia.
Defined.

Lemma initialize_simulation_pose_depends_on_index_witness :
  same_pose (initialize_simulation (Sample.fresh 2))
    (initialize_simulation (set_throttle 1 (Sample.fresh 2))).
Proof.
  destruct (sample_started_settings 2) as (_ & _ & Hk).
  assert (Hr : (0 <= scenario (Sample.fresh 2) <= 5)%Z)
    by (rewrite Hk; lia).
  exact (proj1 (initialize_simulation_pose_depends_on_index
                  (Sample.fresh 2) (set_throttle 1 (Sample.fresh 2)))
           eq_refl Hr).
Defined.

Lemma initialize_simulation_keeps_run_state_witness :
  scenario_description (initialize_simulation (Sample.fresh 1)) 12
  = scenario_description (Sample.fresh 1) 12.
Proof.
  assert (Hi : (10 <= 12)%nat) by (apply Nat.leb_le; reflexivity).
  exact (proj1 (proj2 (initialize_simulation_keeps_run_state
                         (Sample.fresh 1) (Sample.fresh 1))) 12%nat Hi).
Defined.

Lemma initialize_simulation_starts_above_surface_witness :
  MARS_RADIUS <= abs (position (initialize_simulation (Sample.fresh 4))).
Proof.
  destruct (sample_started_settings 4) as (_ & _ & Hk).
  apply (initialize_simulation_starts_above_surface (Sample.fresh 4)).
  - left. exact sample_radius_pos.
  - simpl. lra.
  - simpl. unfold Sample.exosphere. lra.
  - rewrite Hk. lia.
Defined.

Lemma autopilot_at_start_of_descent_witness :
  throttle (autopilot (initialize_simulation (Sample.fresh 1))) = 0.
Proof.
  destruct (sample_started_settings 1) as (_ & _ & Hk).
  apply (autopilot_at_start_of_descent (Sample.fresh 1)).
  - left. exact sample_radius_pos.
  - simpl. unfold Sample.exosphere. lra.
  - left. exact Hk.
  - left. exact Hk.
Defined.

End FurtherInstances.
